(** * Verification of the similar-translation-pair search service

    Shallow embedding of the two server variants of the repository:
    - [SearchSimilarTool]: src/search_similar_tool.py
    - [Server]:            src/server.py

    Python values returned by the tools (dicts of str keys) are modelled by
    [pyval]; Python [str] values are sequences of code points ([pystr]).
    The external collaborators (the vLLM embedding endpoint, the PostgreSQL
    table [trans_agent] and the pgvector operator [<=>]) form a [World]. *)

From Stdlib Require Import List ZArith QArith String Ascii Bool.
From Stdlib Require Import Sorting.Sorted Sorting.Permutation Lia.
Import ListNotations.
Open Scope string_scope.
Open Scope Z_scope.
Open Scope list_scope.
#[local] Set Warnings "-register-all".

(** ** Python values *)

(** A Python [str]: a sequence of Unicode code points. *)
Definition pystr := list Z.

(** A string literal of the source (all literals used are ASCII). *)
Definition lit (s : string) : pystr :=
  map (fun a => Z.of_nat (nat_of_ascii a)) (list_ascii_of_string s).

Inductive pyval : Type :=
| PNone
| PInt (z : Z)
| PStr (s : pystr)
| PList (l : list pyval)
| PDict (d : list (string * pyval)).

(** A dict literal, keys in the order of the source literal. *)
Definition pydict := list (string * pyval).

(** [d.get(k)]: the value bound to [k] (dict literals have distinct keys). *)
Fixpoint dict_get (k : string) (d : pydict) : option pyval :=
  match d with
  | [] => None
  | (k', v) :: d' => if String.eqb k k' then Some v else dict_get k d'
  end.

(** [k in d] *)
Definition has_key (k : string) (d : pydict) : bool :=
  match dict_get k d with Some _ => true | None => false end.

Definition keys (d : pydict) : list string := map fst d.

(** [str(n)] for a Python int: decimal digits, with a leading [-]. *)
Fixpoint digits_rev (fuel : nat) (n : Z) : pystr :=
  match fuel with
  | O => []
  | S f => if n <? 10 then [48 + n] else (48 + n mod 10) :: digits_rev f (n / 10)
  end.

Definition py_str_int (z : Z) : pystr :=
  let a := Z.abs z in
  let ds := rev (digits_rev (S (Z.to_nat (Z.log2 a))) a) in
  if z <? 0 then 45 :: ds else ds.

(** ** The table [trans_agent] *)

(** An embedding vector (pgvector [Vector(768)] / [Vector(1024)]). *)
Definition Vec := list Q.

(** A [timestamptz] value, with the text [str()] gives for the Python
    [datetime] the driver returns. *)
Record Timestamp := { ts_str : pystr }.

(** One row of the table [trans_agent], with every column. *)
Record TransAgent := {
  id : Z;
  gl_number : option pystr;
  row_number : option pystr;
  version : option pystr;
  effective_date : option pystr;
  english_text : pystr;
  chinese_text : pystr;
  english_embedding : Vec;
  chinese_embedding : Vec;
  created_at : option Timestamp
}.

(** The statements the code sends to the store. *)
Inductive db_stmt : Type :=
| QNearest (q : Vec) (limit : Z)  (* ORDER BY english_embedding <=> q LIMIT k *)
| QById (pair_id : Z)             (* WHERE id = pair_id, first() *)
| QSelect1.                       (* SELECT 1 *)

(** The external collaborators.  An [inl e] / [Some e] is a raised
    exception whose [str(e)] is [e]. *)
Record World := {
  (* [LocalVLLMEmbeddings.embed_documents]: the POST to the endpoint *)
  w_embed_documents : list pystr -> pystr + list Vec;
  (* the rows of [trans_agent], in the store's native order *)
  w_table : list TransAgent;
  (* the exception raised by the session while running a statement *)
  w_db_error : db_stmt -> option pystr;
  (* pgvector's cosine distance operator [<=>] *)
  w_cosine_distance : Vec -> Vec -> Q
}.

(** A small exception monad for the [try] blocks. *)
Definition Exc (A : Type) := (pystr + A)%type.
Definition ret {A} (a : A) : Exc A := inr a.
Definition bind {A B} (m : Exc A) (k : A -> Exc B) : Exc B :=
  match m with inl e => inl e | inr a => k a end.
Definition raise {A} (e : pystr) : Exc A := inl e.
Notation "x <- m ;; k" := (bind m (fun x => k)) (at level 61, m at next level, right associativity).

(** [embed_query(text) = embed_documents([text])[0]] *)
Definition embed_query (w : World) (text : pystr) : Exc Vec :=
  match w_embed_documents w [text] with
  | inl e => inl e
  | inr [] => raise (lit "list index out of range")
  | inr (v :: _) => ret v
  end.

(** ** [detect_language] *)

Definition py_isascii (c : Z) : bool := (0 <=? c) && (c <? 128).

(** [str.isalpha] on an ASCII code point: exactly [A-Z] and [a-z].  The
    source only calls it after [isascii], so other code points never reach
    it. *)
Definition py_isalpha_ascii (c : Z) : bool :=
  ((65 <=? c) && (c <=? 90)) || ((97 <=? c) && (c <=? 122)).

(** [sum(1 for c in text if p(c))] *)
Definition py_sum_if (p : Z -> bool) (text : pystr) : Z :=
  fold_left (fun acc c => if p c then acc + 1 else acc) text 0.

Definition detect_language (text : pystr) : pystr :=
  let zh_chars := py_sum_if (fun c => (19968 <=? c) && (c <=? 40959)) text in
  let en_chars := py_sum_if (fun c => py_isascii c && py_isalpha_ascii c) text in
  if zh_chars >? en_chars then lit "zh" else lit "en".

(** ** Validation of [top_k] *)

(** [if not 1 <= top_k <= 20: top_k = min(max(top_k, 1), 20)] *)
Definition validate_top_k (top_k : Z) : Z :=
  if negb ((1 <=? top_k) && (top_k <=? 20)) then Z.min (Z.max top_k 1) 20 else top_k.

(** ** The ranked query

    [db.query(TransAgent).order_by(english_embedding.op('<=>')(q))
       .limit(k).all()]: the store sorts ascending by distance, ties in its
    native order, and keeps the first [k] rows. *)

Section OrderBy.
Variable A : Type.
Variable key : A -> Q.

Fixpoint insert_by (x : A) (l : list A) : list A :=
  match l with
  | [] => [x]
  | y :: l' => if Qle_bool (key x) (key y) then x :: y :: l' else y :: insert_by x l'
  end.

Fixpoint order_by (l : list A) : list A :=
  match l with
  | [] => []
  | x :: l' => insert_by x (order_by l')
  end.
End OrderBy.

Arguments insert_by {A} key x l.
Arguments order_by {A} key l.

Definition row_distance (w : World) (q : Vec) (r : TransAgent) : Q :=
  w_cosine_distance w (english_embedding r) q.

(** Running [QNearest q k] on the session. *)
Definition query_nearest (w : World) (q : Vec) (top_k : Z) : Exc (list TransAgent) :=
  match w_db_error w (QNearest q top_k) with
  | Some e => raise e
  | None => ret (firstn (Z.to_nat top_k) (order_by (row_distance w q) (w_table w)))
  end.

(** [str(x) if x else None] / [x] for the optional text columns. *)
Definition opt_str (o : option pystr) : pyval :=
  match o with Some s => PStr s | None => PNone end.

(** The error dict of both [search_similar_pairs]. *)
Definition search_error (e : pystr) (target_language : pystr) : pydict :=
  [("error", PStr (lit "Error searching for similar pairs: " ++ e));
   ("pairs", PList []);
   ("total_found", PInt 0);
   ("query_language", PStr (lit "unknown"));
   ("target_language", PStr target_language)].

(** The success dict of both [search_similar_pairs]. *)
Definition search_success (pairs : list pyval) (detected_lang target_language : pystr) : pydict :=
  [("pairs", PList pairs);
   ("total_found", PInt (Z.of_nat (List.length pairs)));
   ("query_language", PStr detected_lang);
   ("target_language", PStr target_language)].

(** ** Python operations on values used by the formatting code *)

Definition nl : pystr := [10].
Definition dq : pystr := [34].

(** [==] on str *)
Fixpoint pystr_eqb (a b : pystr) : bool :=
  match a, b with
  | [], [] => true
  | x :: a', y :: b' => (x =? y) && pystr_eqb a' b'
  | _, _ => false
  end.

(** [str(x)] as an f-string field formats it.  The functions modelled here
    format [None], [int] and [str] values only; a list or dict value is
    rendered by its keys and items without Python's quoting of nested
    strings. *)
Fixpoint py_str_value (v : pyval) : pystr :=
  match v with
  | PNone => lit "None"
  | PInt z => py_str_int z
  | PStr s => s
  | PList l => lit "[" ++ List.concat (map (fun x => py_str_value x ++ lit ", ") l) ++ lit "]"
  | PDict d => lit "{" ++ List.concat (map (fun kv => lit (fst kv) ++ lit ": " ++ py_str_value (snd kv) ++ lit ", ") d) ++ lit "}"
  end.

(** Truth value of a Python object. *)
Definition py_truthy (v : pyval) : bool :=
  match v with
  | PNone => false
  | PInt z => negb (z =? 0)
  | PStr [] | PList [] | PDict [] => false
  | PStr _ | PList _ | PDict _ => true
  end.

(** [x or 'N/A'] inside an f-string field. *)
Definition py_or_na (v : pyval) : pystr :=
  if py_truthy v then py_str_value v else lit "N/A".

(** [type(v).__name__] *)
Definition py_type_name (v : pyval) : pystr :=
  match v with
  | PNone => lit "NoneType" | PInt _ => lit "int" | PStr _ => lit "str"
  | PList _ => lit "list" | PDict _ => lit "dict"
  end.

(** [v[k]] with a str key; [str()] of the exception when it raises. *)
Definition py_getitem (v : pyval) (k : string) : Exc pyval :=
  match v with
  | PDict d => match dict_get k d with
               | Some x => ret x
               | None => raise (lit "'" ++ lit k ++ lit "'")
               end
  | PList _ => raise (lit "list indices must be integers or slices, not str")
  | PStr _ => raise (lit "string indices must be integers, not 'str'")
  | _ => raise (lit "'" ++ py_type_name v ++ lit "' object is not subscriptable")
  end.

(** [for x in v]: the items iterated over. *)
Definition py_iter (v : pyval) : Exc (list pyval) :=
  match v with
  | PList l => ret l
  | PDict d => ret (map (fun kv => PStr (lit (fst kv))) d)
  | PStr s => ret (map (fun c => PStr [c]) s)
  | _ => raise (lit "'" ++ py_type_name v ++ lit "' object is not iterable")
  end.

(** [int(s)] for a str [s], as CPython 3.11 computes it with the default
    limit of 4300 digits ([PyLong_FromUnicodeObject]).

    First [_PyUnicode_TransformDecimalAndSpaceToASCII] copies [s], mapping
    each code point from 127 on: a Unicode space to ' ', a decimal digit
    to its ASCII digit, anything else to '?', where the copy stops.  The
    tables are those of Unicode 14.0, the version of CPython 3.11: the
    non-ASCII code points that [str.isspace] accepts, and the first code
    point (digit zero) of each block of ten decimal digits. *)
Definition unicode_spaces : list Z :=
  [133; 160; 5760; 8192; 8193; 8194; 8195; 8196; 8197; 8198;
   8199; 8200; 8201; 8202; 8232; 8233; 8239; 8287; 12288].

Definition unicode_digit_zeros : list Z :=
  [1632; 1776; 1984; 2406; 2534; 2662; 2790; 2918; 3046; 3174;
   3302; 3430; 3558; 3664; 3792; 3872; 4160; 4240; 6112; 6160;
   6470; 6608; 6784; 6800; 6992; 7088; 7232; 7248; 42528; 43216;
   43264; 43472; 43504; 43600; 44016; 65296; 66720; 68912; 69734; 69872;
   69942; 70096; 70384; 70736; 70864; 71248; 71360; 71472; 71904; 72016;
   72784; 73040; 73120; 92768; 92864; 93008; 120782; 120792; 120802; 120812;
   120822; 123200; 123632; 125264; 130032].

(** [Py_UNICODE_TODECIMAL] *)
Definition py_todecimal (c : Z) : option Z :=
  match find (fun z => (z <=? c) && (c <? z + 10)) unicode_digit_zeros with
  | Some z => Some (c - z)
  | None => None
  end.

Fixpoint transform_decimal_and_space (s : pystr) : pystr :=
  match s with
  | [] => []
  | c :: s' =>
      if c <? 127 then c :: transform_decimal_and_space s'
      else if existsb (Z.eqb c) unicode_spaces then 32 :: transform_decimal_and_space s'
      else match py_todecimal c with
           | Some d => (48 + d) :: transform_decimal_and_space s'
           | None => [63]
           end
  end.

(** Then [PyLong_FromString] reads the ASCII copy: spaces ([Py_ISSPACE]),
    a sign, a run of digits and underscores (no leading, doubled or
    trailing underscore), at most 4300 digits, spaces, and the end. *)
Definition py_isspace_c (c : Z) : bool := ((9 <=? c) && (c <=? 13)) || (c =? 32).

Definition py_isdigit_c (c : Z) : bool := (48 <=? c) && (c <=? 57).

Fixpoint skip_space (s : pystr) : pystr :=
  match s with
  | c :: s' => if py_isspace_c c then skip_space s' else s
  | [] => []
  end.

Fixpoint digit_run (s : pystr) : pystr * pystr :=
  match s with
  | c :: s' =>
      if py_isdigit_c c || (c =? 95) then
        let (r, rest) := digit_run s' in (c :: r, rest)
      else ([], s)
  | [] => ([], [])
  end.

Fixpoint underscores_ok (prev : Z) (r : pystr) : bool :=
  match r with
  | [] => negb (prev =? 95)
  | c :: r' => if (c =? 95) && (prev =? 95) then false else underscores_ok c r'
  end.

Definition digits_value (ds : pystr) : Z :=
  fold_left (fun acc c => acc * 10 + (c - 48)) ds 0.

Inductive int_outcome : Type :=
| IntOk (n : Z)
| IntInvalid
| IntLimit (ndigits : Z).

Definition py_long_from_string (b : pystr) : int_outcome :=
  let t := skip_space b in
  let '(sign, u) := match t with
                    | 45 :: u => (-1, u)
                    | 43 :: u => (1, u)
                    | _ => (1, t)
                    end in
  match u with
  | 95 :: _ => IntInvalid
  | _ =>
      let '(r, rest) := digit_run u in
      if negb (underscores_ok 0 r) then IntInvalid
      else
        let ds := filter py_isdigit_c r in
        if 4300 <? Z.of_nat (List.length ds) then IntLimit (Z.of_nat (List.length ds))
        else match ds, skip_space rest with
             | _ :: _, [] => IntOk (sign * digits_value ds)
             | _, _ => IntInvalid
             end
  end.

(** [repr(s)]: single quotes unless [s] holds a single quote and no double
    quote; backslash escapes for the quote, the backslash, tab, newline,
    carriage return and the other ASCII control characters.  A non-ASCII
    code point is copied, which is [repr]'s output for a printable one. *)
Definition hex_digit (n : Z) : Z := if n <? 10 then 48 + n else 87 + n.

Definition py_repr (s : pystr) : pystr :=
  let quote := if existsb (Z.eqb 39) s && negb (existsb (Z.eqb 34) s) then 34 else 39 in
  [quote] ++
  List.concat (map (fun c =>
    if (c =? quote) || (c =? 92) then [92; c]
    else if c =? 9 then [92; 116]
    else if c =? 10 then [92; 110]
    else if c =? 13 then [92; 114]
    else if (c <? 32) || (c =? 127) then [92; 120; hex_digit (c / 16); hex_digit (c mod 16)]
    else [c]) s) ++
  [quote].

Definition int_limit_error (ndigits : Z) : pystr :=
  lit "Exceeds the limit (4300 digits) for integer string conversion: value has " ++
  py_str_int ndigits ++ lit " digits; use sys.set_int_max_str_digits() to increase the limit".

(** The [ValueError] text is cut to 200 characters of [repr(s)] ([%.200R]). *)
Definition py_int (s : pystr) : Exc Z :=
  match py_long_from_string (transform_decimal_and_space s) with
  | IntOk n => ret n
  | IntLimit k => raise (int_limit_error k)
  | IntInvalid => raise (lit "invalid literal for int() with base 10: " ++ firstn 200 (py_repr s))
  end.

(** ** [LocalVLLMEmbeddings] (the same class in both files) *)

(** A value returned by [response.json()]; object keys are distinct. *)
Inductive jsonval : Type :=
| JNull
| JBool (b : bool)
| JInt (z : Z)
| JFloat (q : Q)
| JStr (s : pystr)
| JArr (l : list jsonval)
| JObj (d : list (pystr * jsonval)).

(** A [requests.Response]: [json_body] is [inl e] when [response.json()]
    raises [e]. *)
Record Response := {
  status_code : Z;
  reason : pystr;
  url : pystr;
  json_body : pystr + jsonval
}.

Module Embeddings.

Record LocalVLLMEmbeddings := { endpoint : pystr; model : pystr }.

(** [response.raise_for_status()] of requests. *)
Definition raise_for_status (r : Response) : Exc unit :=
  let s := status_code r in
  if (400 <=? s) && (s <? 500) then
    raise (py_str_int s ++ lit " Client Error: " ++ reason r ++ lit " for url: " ++ url r)
  else if (500 <=? s) && (s <? 600) then
    raise (py_str_int s ++ lit " Server Error: " ++ reason r ++ lit " for url: " ++ url r)
  else ret tt.

Definition json_type_name (v : jsonval) : pystr :=
  match v with
  | JNull => lit "NoneType" | JBool _ => lit "bool" | JInt _ => lit "int"
  | JFloat _ => lit "float" | JStr _ => lit "str" | JArr _ => lit "list"
  | JObj _ => lit "dict"
  end.

Fixpoint json_lookup (k : pystr) (d : list (pystr * jsonval)) : option jsonval :=
  match d with
  | [] => None
  | (k', v) :: d' => if pystr_eqb k k' then Some v else json_lookup k d'
  end.

(** [v[k]] with a str key. *)
Definition json_getitem (v : jsonval) (k : pystr) : Exc jsonval :=
  match v with
  | JObj d => match json_lookup k d with
              | Some x => ret x
              | None => raise (lit "'" ++ k ++ lit "'")
              end
  | JArr _ => raise (lit "list indices must be integers or slices, not str")
  | JStr _ => raise (lit "string indices must be integers, not 'str'")
  | _ => raise (lit "'" ++ json_type_name v ++ lit "' object is not subscriptable")
  end.

(** [for x in v]. *)
Definition json_iter (v : jsonval) : Exc (list jsonval) :=
  match v with
  | JArr l => ret l
  | JObj d => ret (map (fun kv => JStr (fst kv)) d)
  | JStr s => ret (map (fun c => JStr [c]) s)
  | _ => raise (lit "'" ++ json_type_name v ++ lit "' object is not iterable")
  end.

(** A list comprehension whose body may raise: the first exception wins. *)
Fixpoint exc_map {A B} (f : A -> Exc B) (l : list A) : Exc (list B) :=
  match l with
  | [] => ret []
  | x :: l' => y <- f x ;; ys <- exc_map f l' ;; ret (y :: ys)
  end.

(** [self.endpoint], [json=payload] -> the response, or the raised error. *)
Definition Post := pystr -> jsonval -> Exc Response.

Definition embed_documents (self : LocalVLLMEmbeddings) (post : Post) (texts : list pystr)
    : Exc (list jsonval) :=
  let payload := JObj [(lit "model", JStr (model self)); (lit "input", JArr (map JStr texts))] in
  response <- post (endpoint self) payload ;;
  _ <- raise_for_status response ;;
  data <- json_body response ;;
  items <- (d <- json_getitem data (lit "data") ;; json_iter d) ;;
  exc_map (fun item => json_getitem item (lit "embedding")) items.

Definition embed_query (self : LocalVLLMEmbeddings) (post : Post) (text : pystr) : Exc jsonval :=
  docs <- embed_documents self post [text] ;;
  match docs with
  | [] => raise (lit "list index out of range")
  | v :: _ => ret v
  end.

End Embeddings.

(** ** src/search_similar_tool.py *)
Module SearchSimilarTool.

(** The loop body converting a retrieved row. *)
Definition row_to_pair (row : TransAgent) : pyval :=
  PDict [("id", PInt (id row));
         ("gl_number", opt_str (gl_number row));
         ("row_number", opt_str (row_number row));
         ("version", opt_str (version row));
         ("effective_date", opt_str (effective_date row));
         ("english_text", PStr (english_text row));
         ("chinese_text", PStr (chinese_text row));
         ("context", PStr (english_text row));
         ("metadata", PDict [("created_at",
            match created_at row with
            | Some t => PStr (ts_str t)
            | None => PNone
            end)])].

Definition search_similar_pairs (w : World) (user_input target_language : pystr)
    (top_k : Z) : pydict :=
  let top_k := validate_top_k top_k in
  let detected_lang := detect_language user_input in
  let body :=
    query_embedding <- embed_query w user_input ;;
    retrieved <- query_nearest w query_embedding top_k ;;
    let pairs := map row_to_pair retrieved in
    ret (search_success pairs detected_lang target_language) in
  match body with
  | inl e => search_error e target_language
  | inr d => d
  end.

Definition health_check : pydict :=
  [("status", PStr (lit "healthy")); ("service", PStr (lit "search_similar_tool"))].

(** [pair.created_at or 'N/A']: a datetime is always true. *)
Definition created_at_or_na (row : TransAgent) : pystr :=
  match created_at row with Some t => ts_str t | None => lit "N/A" end.

(** The resource [translation://{pair_id}] of this file. *)
Definition get_translation_pair (w : World) (pair_id : pystr) : pystr :=
  let body :=
    n <- py_int pair_id ;;
    match w_db_error w (QById n) with
    | Some e => raise e
    | None =>
        match find (fun r => id r =? n) (w_table w) with
        | None => ret (lit "Translation pair with ID " ++ pair_id ++ lit " not found")
        | Some pair_ =>
            ret (lit "Translation Pair #" ++ py_str_int (id pair_) ++ nl ++
                 lit "GL Number: " ++ py_or_na (opt_str (gl_number pair_)) ++ nl ++
                 lit "Row Number: " ++ py_or_na (opt_str (row_number pair_)) ++ nl ++
                 lit "Version: " ++ py_or_na (opt_str (version pair_)) ++ nl ++
                 lit "Effective Date: " ++ py_or_na (opt_str (effective_date pair_)) ++ nl ++ nl ++
                 lit "English Text: " ++ english_text pair_ ++ nl ++
                 lit "Chinese Text: " ++ chinese_text pair_ ++ nl ++ nl ++
                 lit "Created At: " ++ created_at_or_na pair_)
        end
    end in
  match body with
  | inl e => lit "Error retrieving translation pair: " ++ e
  | inr out => out
  end.

(** The [for i, pair in enumerate(result['pairs'], 1)] loop of
    [get_search_results]. *)
Fixpoint render_pairs (i : Z) (ps : list pyval) : Exc pystr :=
  match ps with
  | [] => ret []
  | pair_ :: ps' =>
      pid <- py_getitem pair_ "id" ;;
      en <- py_getitem pair_ "english_text" ;;
      zh <- py_getitem pair_ "chinese_text" ;;
      gl <- py_getitem pair_ "gl_number" ;;
      rest <- render_pairs (i + 1) ps' ;;
      ret (py_str_int i ++ lit ". Translation Pair #" ++ py_str_value pid ++ nl ++
           lit "   English: " ++ py_str_value en ++ nl ++
           lit "   Chinese: " ++ py_str_value zh ++ nl ++
           lit "   GL Number: " ++ py_or_na gl ++ nl ++ nl ++ rest)
  end.

(** The resource [search://results/{query}]. *)
Definition get_search_results (w : World) (query : pystr) : pystr :=
  let body :=
    let result := search_similar_pairs w query (lit "chinese") 5 in
    if has_key "error" result then
      e <- py_getitem (PDict result) "error" ;;
      ret (lit "Search Error: " ++ py_str_value e)
    else
      ql <- py_getitem (PDict result) "query_language" ;;
      tl <- py_getitem (PDict result) "target_language" ;;
      tf <- py_getitem (PDict result) "total_found" ;;
      pairs <- py_getitem (PDict result) "pairs" ;;
      ps <- py_iter pairs ;;
      entries <- render_pairs 1 ps ;;
      ret (lit "Search Results for: '" ++ query ++ lit "'" ++ nl ++
           lit "Query Language: " ++ py_str_value ql ++ nl ++
           lit "Target Language: " ++ py_str_value tl ++ nl ++
           lit "Total Found: " ++ py_str_value tf ++ nl ++ nl ++ entries) in
  match body with
  | inl e => lit "Error performing search: " ++ e
  | inr out => out
  end.

(** The [styles] dict of [search_translation_prompt]. *)
Definition styles : list (pystr * pystr) :=
  [(lit "detailed", lit "Please analyze the following text and search for similar translation pairs. Provide detailed explanations of the matches and their relevance.");
   (lit "simple", lit "Find similar translation pairs for the given text.");
   (lit "context", lit "Search for translation pairs and explain how they can be used in similar contexts.")].

Fixpoint styles_get (k : pystr) (l : list (pystr * pystr)) : option pystr :=
  match l with
  | [] => None
  | (k', v) :: l' => if pystr_eqb k k' then Some v else styles_get k l'
  end.

Definition search_translation_prompt (text target_language style : pystr) : pystr :=
  let default := match styles_get (lit "detailed") styles with Some v => v | None => [] end in
  let prompt_style := match styles_get style styles with Some v => v | None => default end in
  prompt_style ++ nl ++ nl ++
  lit "Text to search: " ++ dq ++ text ++ dq ++ nl ++
  lit "Target language: " ++ target_language ++ nl ++ nl ++
  lit "Use the search_similar_pairs tool to find relevant translation pairs, then analyze the results and explain:" ++ nl ++
  lit "1. Why these pairs are similar to the input text" ++ nl ++
  lit "2. The context in which these translations would be appropriate" ++ nl ++
  lit "3. Any patterns you notice in the translation style" ++ nl ++
  lit "4. Suggestions for how to use these translations effectively" ++ nl.

End SearchSimilarTool.

(** ** src/server.py *)
Module Server.

(** The ORM class [TransAgent] of server.py maps no [created_at] column:
    [hasattr(row, 'created_at')] is false for its rows. *)
Definition hasattr_created_at : bool := false.

(** [str(getattr(row, 'created_at', None))]: [str(None)] is ["None"]. *)
Definition str_getattr_created_at (row : TransAgent) : pystr :=
  match created_at row with Some t => ts_str t | None => lit "None" end.

Definition row_to_pair (row : TransAgent) : pyval :=
  PDict [("id", PInt (id row));
         ("gl_number", opt_str (gl_number row));
         ("row_number", opt_str (row_number row));
         ("version", opt_str (version row));
         ("effective_date", opt_str (effective_date row));
         ("english_text", PStr (english_text row));
         ("chinese_text", PStr (chinese_text row));
         ("context", PStr (english_text row));
         ("metadata", PDict [("created_at",
            if hasattr_created_at then PStr (str_getattr_created_at row) else PNone)])].

Definition make_database_request (w : World) (query_embedding : Vec) (top_k : Z)
    : Exc (list pyval) :=
  retrieved <- query_nearest w query_embedding top_k ;;
  ret (map row_to_pair retrieved).

Definition search_similar_pairs (w : World) (user_input target_language : pystr)
    (top_k : Z) : pydict :=
  let top_k := validate_top_k top_k in
  let detected_lang := detect_language user_input in
  let body :=
    query_embedding <- embed_query w user_input ;;
    pairs <- make_database_request w query_embedding top_k ;;
    ret (search_success pairs detected_lang target_language) in
  match body with
  | inl e => search_error e target_language
  | inr d => d
  end.

Definition get_translation_pair (w : World) (pair_id : Z) : pydict :=
  match w_db_error w (QById pair_id) with
  | Some e => [("error", PStr (lit "Error retrieving translation pair: " ++ e))]
  | None =>
      match find (fun r => id r =? pair_id) (w_table w) with
      | None => [("error", PStr (lit "Translation pair with ID " ++ py_str_int pair_id
                                 ++ lit " not found"))]
      | Some pair_row =>
          [("id", PInt (id pair_row));
           ("gl_number", opt_str (gl_number pair_row));
           ("row_number", opt_str (row_number pair_row));
           ("version", opt_str (version pair_row));
           ("effective_date", opt_str (effective_date pair_row));
           ("english_text", PStr (english_text pair_row));
           ("chinese_text", PStr (chinese_text pair_row));
           ("created_at", if hasattr_created_at then PStr (str_getattr_created_at pair_row)
                          else PNone)]
      end
  end.

Definition health_check (w : World) : pydict :=
  match w_db_error w QSelect1 with
  | None => [("status", PStr (lit "healthy")); ("service", PStr (lit "search_similar_tool"));
             ("database", PStr (lit "connected"))]
  | Some e => [("status", PStr (lit "unhealthy")); ("service", PStr (lit "search_similar_tool"));
               ("error", PStr e)]
  end.

(** [d.get(k, default)] *)
Definition get_default (d : pydict) (k : string) (default : pyval) : pyval :=
  match dict_get k d with Some v => v | None => default end.

(** [v.get(k, default)] on the value of [pair['metadata']]. *)
Definition py_dict_get_method (v : pyval) (k : string) (default : pyval) : Exc pyval :=
  match v with
  | PDict d => ret (get_default d k default)
  | _ => raise (lit "'" ++ py_type_name v ++ lit "' object has no attribute 'get'")
  end.

Definition format_search_result (pair_ : pydict) : Exc pystr :=
  pid <- py_getitem (PDict pair_) "id" ;;
  let gl := get_default pair_ "gl_number" (PStr (lit "N/A")) in
  let rn := get_default pair_ "row_number" (PStr (lit "N/A")) in
  let ver := get_default pair_ "version" (PStr (lit "N/A")) in
  let eff := get_default pair_ "effective_date" (PStr (lit "N/A")) in
  en <- py_getitem (PDict pair_) "english_text" ;;
  zh <- py_getitem (PDict pair_) "chinese_text" ;;
  md <- py_getitem (PDict pair_) "metadata" ;;
  ca <- py_dict_get_method md "created_at" (PStr (lit "N/A")) ;;
  ret (nl ++ lit "Translation Pair #" ++ py_str_value pid ++ lit ":" ++ nl ++
       lit "GL Number: " ++ py_str_value gl ++ nl ++
       lit "Row Number: " ++ py_str_value rn ++ nl ++
       lit "Version: " ++ py_str_value ver ++ nl ++
       lit "Effective Date: " ++ py_str_value eff ++ nl ++ nl ++
       lit "English Text: " ++ py_str_value en ++ nl ++
       lit "Chinese Text: " ++ py_str_value zh ++ nl ++ nl ++
       lit "Created At: " ++ py_str_value ca ++ nl).

(** The resource [translation://{pair_id}]. *)
Definition get_translation_resource (w : World) (pair_id : pystr) : pystr :=
  let body :=
    n <- py_int pair_id ;;
    match w_db_error w (QById n) with
    | Some e => raise e
    | None =>
        match find (fun r => id r =? n) (w_table w) with
        | None => ret (lit "Translation pair with ID " ++ pair_id ++ lit " not found")
        | Some pair_ =>
            format_search_result
              [("id", PInt (id pair_));
               ("gl_number", opt_str (gl_number pair_));
               ("row_number", opt_str (row_number pair_));
               ("version", opt_str (version pair_));
               ("effective_date", opt_str (effective_date pair_));
               ("english_text", PStr (english_text pair_));
               ("chinese_text", PStr (chinese_text pair_));
               ("metadata", PDict [("created_at",
                  if hasattr_created_at then PStr (str_getattr_created_at pair_) else PNone)])]
        end
    end in
  match body with
  | inl e => lit "Error retrieving translation pair: " ++ e
  | inr out => out
  end.

(** The [for i, row in enumerate(retrieved, 1)] loop of
    [get_search_results_resource]. *)
Fixpoint render_rows (i : Z) (rows : list TransAgent) : pystr :=
  match rows with
  | [] => []
  | row :: rows' =>
      py_str_int i ++ lit ". Translation Pair #" ++ py_str_int (id row) ++ nl ++
      lit "   English: " ++ english_text row ++ nl ++
      lit "   Chinese: " ++ chinese_text row ++ nl ++
      lit "   GL Number: " ++ py_or_na (opt_str (gl_number row)) ++ nl ++ nl ++
      render_rows (i + 1) rows'
  end.

(** The resource [search://results/{query}]. *)
Definition get_search_results_resource (w : World) (query : pystr) : pystr :=
  let body :=
    let detected_lang := detect_language query in
    query_embedding <- embed_query w query ;;
    retrieved <- query_nearest w query_embedding 5 ;;
    match retrieved with
    | [] => ret (lit "No search results found for: '" ++ query ++ lit "'")
    | _ :: _ =>
        ret (lit "Search Results for: '" ++ query ++ lit "'" ++ nl ++
             lit "Query Language: " ++ detected_lang ++ nl ++
             lit "Total Found: " ++ py_str_int (Z.of_nat (List.length retrieved)) ++ nl ++ nl ++
             render_rows 1 retrieved)
    end in
  match body with
  | inl e => lit "Error performing search: " ++ e
  | inr out => out
  end.

(** [s.split(c)] for a one-character separator. *)
Fixpoint py_split_char (c : Z) (s : pystr) : list pystr :=
  match s with
  | [] => [[]]
  | x :: s' =>
      let rest := py_split_char c s' in
      if x =? c then [] :: rest
      else match rest with
           | r :: rs => (x :: r) :: rs
           | [] => [[x]]
           end
  end.

(** [l[1]] *)
Definition py_index1 (l : list pystr) : Exc pystr :=
  match l with
  | _ :: x :: _ => ret x
  | _ => raise (lit "list index out of range")
  end.

Definition get_service_info (database_url : pystr) : Exc pydict :=
  u <- (if existsb (fun c => c =? 64) database_url
        then py_index1 (py_split_char 64 database_url)
        else ret (lit "configured")) ;;
  ret [("service", PStr (lit "Search Similar Tool MCP Server"));
       ("version", PStr (lit "1.0.0"));
       ("description", PStr (lit "Provides search functionality for finding similar translation pairs using embeddings"));
       ("tools", PDict [("search_similar_pairs", PStr (lit "Finds top-k closest translation pairs based on embedding similarity"));
                        ("get_translation_pair", PStr (lit "Retrieves a specific translation pair by ID"));
                        ("health_check", PStr (lit "Health check for the service and database connection"));
                        ("get_service_info", PStr (lit "Returns information about the service and available tools"))]);
       ("database", PDict [("url", PStr u); ("table", PStr (lit "trans_agent"))])].

End Server.

(** ** Definitions used in the statements *)

(** The rows of a query result are ordered by non-decreasing [<=>]
    distance of their [english_embedding] to [q]. *)
Definition sorted_by_distance (w : World) (q : Vec) (rows : list TransAgent) : Prop :=
  Sorted (fun a b => (row_distance w q a <= row_distance w q b)%Q) rows.

(** [pair["id"]] of a converted row. *)
Definition pair_field (k : string) (p : pyval) : option pyval :=
  match p with PDict d => dict_get k d | _ => None end.

(** [response["total_found"] == len(response["pairs"])] and the ids in
    [response["pairs"]] are pairwise distinct. *)
Definition response_counts_ok (r : pydict) : Prop :=
  exists ps, dict_get "pairs" r = Some (PList ps) /\
             dict_get "total_found" r = Some (PInt (Z.of_nat (List.length ps))) /\
             NoDup (map (pair_field "id") ps).

(** [d[k] = v] on a dict whose key [k] is present. *)
Fixpoint dict_set (k : string) (v : pyval) (d : pydict) : pydict :=
  match d with
  | [] => []
  | (k', v') :: d' => if String.eqb k k' then (k', v) :: d' else (k', v') :: dict_set k v d'
  end.

(** The two shapes of a [search_similar_pairs] response: the success dict
    (detected language ["zh"] or ["en"], no ["error"] key) or the error
    dict (with an ["error"] key). *)
Definition response_shape (target_language : pystr) (r : pydict) : Prop :=
  (exists ps lang, r = search_success ps lang target_language /\
                   (lang = lit "zh" \/ lang = lit "en") /\ has_key "error" r = false) \/
  (exists e, r = search_error e target_language /\ has_key "error" r = true).

(** The counts of section 4.1 of the spec, following its words: code
    points in U+4E00..U+9FFF, and ASCII alphabetic characters. *)
Definition cjk_count (text : pystr) : nat :=
  List.length (filter (fun c => (19968 <=? c) && (c <=? 40959)) text).

Definition latin_count (text : pystr) : nat :=
  List.length (filter (fun c => ((65 <=? c) && (c <=? 90)) || ((97 <=? c) && (c <=? 122))) text).

(** The spec's example "保险条款" as code points. *)
Definition baoxian_tiaokuan : pystr := [20445; 38505; 26465; 27454].

(** Both variants run the same pipeline: one equation for each. *)
Definition pipeline (row_to_pair : TransAgent -> pyval) (w : World)
    (user_input target_language : pystr) (top_k : Z) : pydict :=
  match embed_query w user_input with
  | inl e => search_error e target_language
  | inr q =>
      match query_nearest w q (validate_top_k top_k) with
      | inl e => search_error e target_language
      | inr retrieved =>
          search_success (map row_to_pair retrieved) (detect_language user_input) target_language
      end
  end.


(** The [payload] [embed_documents] posts. *)
Definition embed_payload (self : Embeddings.LocalVLLMEmbeddings) (texts : list pystr) : jsonval :=
  JObj [(lit "model", JStr (Embeddings.model self)); (lit "input", JArr (map JStr texts))].

(** A client and endpoint replies for the examples. *)
Definition demo_client : Embeddings.LocalVLLMEmbeddings :=
  {| Embeddings.endpoint := lit "http://localhost:8007/v1/embeddings";
     Embeddings.model := lit "hosted_vllm/Dmeta" |}.

Definition reply (status : Z) (body : jsonval) : Embeddings.Post :=
  fun u _ => ret {| status_code := status; reason := lit "Not Found"; url := u;
                    json_body := inr body |}.

Definition data_body (es : list jsonval) : jsonval :=
  JObj [(lit "object", JStr (lit "list"));
        (lit "data", JArr (map (fun e => JObj [(lit "object", JStr (lit "embedding"));
                                               (lit "embedding", e)]) es))].

(** [info["database"]["url"]] of the dict [get_service_info] returns. *)
Definition database_url_of (info : pydict) : option pyval :=
  match dict_get "database" info with
  | Some (PDict db) => dict_get "url" db
  | _ => None
  end.

(** [str(x)] of a nullable text column: ["None"] for NULL. *)
Definition str_or_none (o : option pystr) : pystr :=
  match o with Some s => s | None => lit "None" end.

(** A pair dict with its [metadata] replaced by [{"created_at": None}]. *)
Definition drop_created_at (v : pyval) : pyval :=
  match v with
  | PDict d => PDict (map (fun kv => if String.eqb (fst kv) "metadata"
                                     then (fst kv, PDict [("created_at", PNone)]) else kv) d)
  | _ => v
  end.

(** A response dict with [drop_created_at] applied to each of its pairs. *)
Definition drop_created_at_pairs (d : pydict) : pydict :=
  map (fun kv => if String.eqb (fst kv) "pairs"
                 then (fst kv, match snd kv with
                               | PList l => PList (map drop_created_at l)
                               | v => v
                               end)
                 else kv) d.

(** ** Concrete worlds *)

(** A small world: three stored pairs, a reachable embedding endpoint and a
    store that raises nothing.  [<=>] is [1 - q.v], the cosine distance of
    unit vectors. *)
Definition dot (v q : Vec) : Q :=
  fold_left Qplus (map (fun ab => (fst ab * snd ab)%Q) (combine v q)) 0%Q.

Definition demo_row (i : Z) (en zh : string) (e : Vec) (ts : option Timestamp) : TransAgent :=
  {| id := i; gl_number := Some (lit "GL-1"); row_number := None; version := None;
     effective_date := None; english_text := lit en; chinese_text := lit zh;
     english_embedding := e; chinese_embedding := e; created_at := ts |}.

Definition demo_table : list TransAgent :=
  [demo_row 1 "payment terms" "pay" [0; 1]%Q None;
   demo_row 2 "insurance guidelines" "ins" [1; 0]%Q (Some {| ts_str := lit "2024-01-01 00:00:00+00:00" |});
   demo_row 3 "insurance terms" "terms" [3#5; 4#5]%Q None].

Definition demo_world : World :=
  {| w_embed_documents := fun _ => inr [[1; 0]%Q];
     w_table := demo_table;
     w_db_error := fun _ => None;
     w_cosine_distance := fun v q => (1 - dot v q)%Q |}.

(** The embedding endpoint is unreachable. *)
Definition unreachable_world : World :=
  {| w_embed_documents := fun _ => inl (lit "Connection refused");
     w_table := demo_table;
     w_db_error := fun _ => None;
     w_cosine_distance := fun v q => (1 - dot v q)%Q |}.

(** The store is down. *)
Definition db_down_world : World :=
  {| w_embed_documents := fun _ => inr [[1; 0]%Q];
     w_table := demo_table;
     w_db_error := fun _ => Some (lit "could not connect to server");
     w_cosine_distance := fun v q => (1 - dot v q)%Q |}.

(** The endpoint answers with an empty [data] list. *)
Definition empty_reply_world : World :=
  {| w_embed_documents := fun _ => inr [];
     w_table := demo_table;
     w_db_error := fun _ => None;
     w_cosine_distance := fun v q => (1 - dot v q)%Q |}.

(** The table is empty. *)
Definition empty_table_world : World :=
  {| w_embed_documents := fun _ => inr [[1; 0]%Q];
     w_table := [];
     w_db_error := fun _ => None;
     w_cosine_distance := fun v q => (1 - dot v q)%Q |}.

(** No stored row has a [created_at]. *)
Definition no_timestamp_world : World :=
  {| w_embed_documents := fun _ => inr [[1; 0]%Q];
     w_table := [demo_row 1 "payment terms" "pay" [0; 1]%Q None;
                 demo_row 3 "insurance terms" "terms" [3#5; 4#5]%Q None];
     w_db_error := fun _ => None;
     w_cosine_distance := fun v q => (1 - dot v q)%Q |}.

(** ** The ranked query: permutation, order, prefix *)

Section OrderByFacts.
Variable A : Type.
Variable key : A -> Q.
Let R := fun a b => (key a <= key b)%Q.

Lemma insert_by_perm x l : Permutation (x :: l) (insert_by key x l).
Proof.
  induction l as [|y l IH]; simpl; [reflexivity|].
  destruct (Qle_bool (key x) (key y)); [reflexivity|].
  rewrite perm_swap. constructor. exact IH.
Qed.

Lemma order_by_perm l : Permutation l (order_by key l).
Proof.
  induction l as [|x l IH]; simpl; [constructor|].
  rewrite <- insert_by_perm. constructor. exact IH.
Qed.

Lemma insert_by_hd x y l :
  R y x -> HdRel R y l -> HdRel R y (insert_by key x l).
Proof.
  intros Hyx Hl. destruct l as [|z l]; simpl.
  - constructor. exact Hyx.
  - destruct (Qle_bool (key x) (key z)); constructor; [exact Hyx|].
    inversion Hl; assumption.
Qed.

Lemma insert_by_sorted x l : Sorted R l -> Sorted R (insert_by key x l).
Proof.
  induction 1 as [|y l Hs IH Hhd]; simpl.
  - repeat constructor.
  - destruct (Qle_bool (key x) (key y)) eqn:E.
    + apply Qle_bool_iff in E. constructor; [constructor; assumption|].
      constructor. exact E.
    + constructor; [exact IH|].
      apply insert_by_hd; [|exact Hhd].
      unfold R. apply Qlt_le_weak, Qnot_le_lt.
      intro H. apply Qle_bool_iff in H. congruence.
Qed.

Lemma order_by_sorted l : Sorted R (order_by key l).
Proof.
  induction l as [|x l IH]; simpl; [constructor|].
  apply insert_by_sorted, IH.
Qed.

Lemma firstn_sorted (P : A -> A -> Prop) n l : Sorted P l -> Sorted P (firstn n l).
Proof.
  revert l. induction n as [|n IH]; intros l Hs; simpl; [constructor|].
  destruct l as [|x l]; [constructor|].
  apply Sorted_inv in Hs as [Hs Hhd].
  constructor; [apply IH, Hs|].
  destruct n as [|n]; simpl; [constructor|].
  destruct l as [|y l]; [constructor|].
  inversion Hhd; subst. constructor. assumption.
Qed.
End OrderByFacts.

Arguments insert_by_perm {A} key x l.
Arguments order_by_perm {A} key l.
Arguments order_by_sorted {A} key l.
Arguments firstn_sorted {A} P n l _.

Lemma firstn_sub {A} n (l : list A) : exists rest, Permutation (firstn n l ++ rest) l.
Proof. exists (skipn n l). rewrite firstn_skipn. reflexivity. Qed.

Lemma validate_top_k_range top_k : 1 <= validate_top_k top_k <= 20.
Proof.
  unfold validate_top_k.
  destruct (1 <=? top_k) eqn:E1, (top_k <=? 20) eqn:E2; simpl;
    rewrite ?Z.leb_le, ?Z.leb_gt in *; lia.
Qed.

(** The ranked query, when the store raises nothing. *)
Lemma query_nearest_spec w q k :
  1 <= k ->
  w_db_error w (QNearest q k) = None ->
  exists retrieved,
    query_nearest w q k = ret retrieved /\
    Z.of_nat (List.length retrieved) = Z.min k (Z.of_nat (List.length (w_table w))) /\
    sorted_by_distance w q retrieved /\
    exists rest, Permutation (retrieved ++ rest) (w_table w).
Proof.
  intros Hk Hdb. unfold query_nearest. rewrite Hdb.
  set (sorted := order_by (row_distance w q) (w_table w)).
  exists (firstn (Z.to_nat k) sorted). split; [reflexivity|].
  assert (Hp : Permutation (w_table w) sorted) by apply order_by_perm.
  split; [|split].
  - rewrite length_firstn, <- (Permutation_length Hp). lia.
  - apply firstn_sorted, order_by_sorted.
  - destruct (firstn_sub (Z.to_nat k) sorted) as [rest Hr].
    exists rest. rewrite Hr. symmetry. exact Hp.
Qed.

Lemma tool_pipeline w u t k :
  SearchSimilarTool.search_similar_pairs w u t k = pipeline SearchSimilarTool.row_to_pair w u t k.
Proof.
  unfold SearchSimilarTool.search_similar_pairs, pipeline, bind, ret.
  destruct (embed_query w u); [reflexivity|].
  destruct (query_nearest w _ _); reflexivity.
Qed.

Lemma server_pipeline w u t k :
  Server.search_similar_pairs w u t k = pipeline Server.row_to_pair w u t k.
Proof.
  unfold Server.search_similar_pairs, Server.make_database_request, pipeline, bind, ret.
  destruct (embed_query w u); [reflexivity|].
  destruct (query_nearest w _ _); reflexivity.
Qed.

Lemma pipeline_counts_ok row_to_pair w u t k :
  (forall row, pair_field "id" (row_to_pair row) = Some (PInt (id row))) ->
  NoDup (map id (w_table w)) ->
  response_counts_ok (pipeline row_to_pair w u t k).
Proof.
  intros Hid Hnd. unfold pipeline.
  destruct (embed_query w u) as [e|q].
  { exists []. repeat split; constructor. }
  pose proof (validate_top_k_range k) as Hk.
  destruct (w_db_error w (QNearest q (validate_top_k k))) as [e|] eqn:Hdb.
  { unfold query_nearest. rewrite Hdb. exists []. repeat split; constructor. }
  destruct (query_nearest_spec w q (validate_top_k k)) as (rs & Hq & _ & _ & rest & Hp);
    [lia|exact Hdb|].
  rewrite Hq. exists (map row_to_pair rs). repeat split.
  rewrite map_map, (map_ext _ (fun r => Some (PInt (id r))) Hid).
  rewrite <- (map_map id (fun z => Some (PInt z))).
  apply NoDup_map_NoDup_ForallPairs; [intros a b _ _ Hab; congruence|].
  apply (Permutation_map id), Permutation_sym in Hp.
  apply (Permutation_NoDup Hp) in Hnd. rewrite map_app in Hnd.
  eapply NoDup_app_remove_r, Hnd.
Qed.

Lemma detect_language_cases text :
  detect_language text = lit "zh" \/ detect_language text = lit "en".
Proof. unfold detect_language. destruct (_ >? _); auto. Qed.

Lemma pipeline_shape row_to_pair w u t k :
  response_shape t (pipeline row_to_pair w u t k).
Proof.
  unfold response_shape, pipeline.
  destruct (embed_query w u) as [e|q]; [right; exists e; split; reflexivity|].
  destruct (query_nearest w q (validate_top_k k)) as [e|rs];
    [right; exists e; split; reflexivity|].
  left. do 2 eexists. split; [reflexivity|]. split; [apply detect_language_cases|reflexivity].
Qed.

Lemma validate_top_k_idem top_k : validate_top_k (validate_top_k top_k) = validate_top_k top_k.
Proof.
  pose proof (validate_top_k_range top_k) as H.
  unfold validate_top_k at 1.
  destruct (1 <=? validate_top_k top_k) eqn:E1, (validate_top_k top_k <=? 20) eqn:E2;
    rewrite ?Z.leb_le, ?Z.leb_gt in *; simpl; try reflexivity; lia.
Qed.

Lemma py_sum_if_acc (p : Z -> bool) (text : pystr) (acc : Z) :
  fold_left (fun acc c => if p c then acc + 1 else acc) text acc
  = acc + Z.of_nat (List.length (filter p text)).
Proof.
  revert acc. induction text as [|c text IH]; intro acc; simpl; [lia|].
  rewrite IH. destruct (p c); simpl List.length; lia.
Qed.

Lemma py_sum_if_count p text : py_sum_if p text = Z.of_nat (List.length (filter p text)).
Proof. unfold py_sum_if. rewrite py_sum_if_acc. lia. Qed.

Example demo_search_ids :
  map (pair_field "id")
    match dict_get "pairs" (SearchSimilarTool.search_similar_pairs demo_world
                              (lit "insurance guidelines") (lit "chinese") 3) with
    | Some (PList ps) => ps | _ => [] end
  = [Some (PInt 2); Some (PInt 3); Some (PInt 1)].
Proof. vm_compute. reflexivity. Qed.

Example demo_search_clamped :
  dict_get "total_found" (Server.search_similar_pairs demo_world (lit "x") (lit "english") 0)
  = Some (PInt 1).
Proof. vm_compute. reflexivity. Qed.

(** ** Claims *)

(** C1: on a successful call (the embedding is obtained and the ranked query
    raises nothing) the effective [k] is at least 1, and both variants return
    the converted rows of one query result [retrieved]: at most [k] rows,
    fewer only when the table holds fewer than [k] rows, taken from the
    table, and sorted by non-decreasing cosine distance of their
    [english_embedding] to the query vector. *)
Theorem search_similar_pairs_top_k_sorted w user_input target_language top_k q :
  embed_query w user_input = inr q ->
  w_db_error w (QNearest q (validate_top_k top_k)) = None ->
  1 <= validate_top_k top_k /\
  exists retrieved,
    SearchSimilarTool.search_similar_pairs w user_input target_language top_k =
      search_success (map SearchSimilarTool.row_to_pair retrieved)
        (detect_language user_input) target_language /\
    Server.search_similar_pairs w user_input target_language top_k =
      search_success (map Server.row_to_pair retrieved)
        (detect_language user_input) target_language /\
    Z.of_nat (List.length retrieved) <= validate_top_k top_k /\
    Z.of_nat (List.length retrieved) =
      Z.min (validate_top_k top_k) (Z.of_nat (List.length (w_table w))) /\
    sorted_by_distance w q retrieved /\
    (exists rest, Permutation (retrieved ++ rest) (w_table w)).
Proof.
  intros He Hdb. pose proof (validate_top_k_range top_k) as Hk.
  split; [lia|].
  destruct (query_nearest_spec w q (validate_top_k top_k)) as (rs & Hq & Hl & Hs & Hp);
    [lia|exact Hdb|].
  exists rs. rewrite tool_pipeline, server_pipeline. unfold pipeline.
  rewrite He, Hq. repeat split; try assumption; lia.
Qed.

Lemma search_similar_pairs_top_k_sorted_witness :
  embed_query demo_world (lit "insurance guidelines") = inr [1; 0]%Q /\
  w_db_error demo_world (QNearest [1; 0]%Q (validate_top_k 3)) = None /\
  (1 <= validate_top_k 3 /\
  exists retrieved,
    SearchSimilarTool.search_similar_pairs demo_world (lit "insurance guidelines") (lit "chinese") 3 =
      search_success (map SearchSimilarTool.row_to_pair retrieved)
        (detect_language (lit "insurance guidelines")) (lit "chinese") /\
    Server.search_similar_pairs demo_world (lit "insurance guidelines") (lit "chinese") 3 =
      search_success (map Server.row_to_pair retrieved)
        (detect_language (lit "insurance guidelines")) (lit "chinese") /\
    Z.of_nat (List.length retrieved) <= validate_top_k 3 /\
    Z.of_nat (List.length retrieved) =
      Z.min (validate_top_k 3) (Z.of_nat (List.length (w_table demo_world))) /\
    sorted_by_distance demo_world [1; 0]%Q retrieved /\
    (exists rest, Permutation (retrieved ++ rest) (w_table demo_world))).
Proof.
  split; [reflexivity|]. split; [reflexivity|].
  apply search_similar_pairs_top_k_sorted; reflexivity.
Defined.

(** C2: when the ids of the table are distinct (its primary key), every
    response of both variants, success or error, has
    [total_found == len(pairs)] and pairwise distinct ids in [pairs]. *)
Theorem search_similar_pairs_counts_unique_ids w user_input target_language top_k :
  NoDup (map id (w_table w)) ->
  response_counts_ok (SearchSimilarTool.search_similar_pairs w user_input target_language top_k) /\
  response_counts_ok (Server.search_similar_pairs w user_input target_language top_k).
Proof.
  intro Hnd. rewrite tool_pipeline, server_pipeline.
  split; apply pipeline_counts_ok; try exact Hnd; reflexivity.
Qed.

Lemma search_similar_pairs_counts_unique_ids_witness :
  NoDup (map id (w_table demo_world)) /\
  response_counts_ok (SearchSimilarTool.search_similar_pairs demo_world (lit "payment") (lit "chinese") 2) /\
  response_counts_ok (Server.search_similar_pairs demo_world (lit "payment") (lit "chinese") 2).
Proof.
  split; [simpl; repeat constructor; simpl; intuition discriminate|].
  apply search_similar_pairs_counts_unique_ids.
  simpl; repeat constructor; simpl; intuition discriminate.
Defined.

(** C3: when the embedding call raises (including an empty [data] list) or
    the ranked query raises [e], both variants return the error dict:
    ["error"] is ["Error searching for similar pairs: " + str(e)],
    ["pairs"] is [[]], ["total_found"] is [0], ["query_language"] is
    ["unknown"] and ["target_language"] is the argument unchanged. *)
Theorem search_similar_pairs_failure w user_input target_language top_k e :
  (embed_query w user_input = inl e \/
   exists q, embed_query w user_input = inr q /\
             w_db_error w (QNearest q (validate_top_k top_k)) = Some e) ->
  SearchSimilarTool.search_similar_pairs w user_input target_language top_k =
    search_error e target_language /\
  Server.search_similar_pairs w user_input target_language top_k =
    search_error e target_language.
Proof.
  intros H. rewrite tool_pipeline, server_pipeline. unfold pipeline.
  destruct H as [He | (q & He & Hdb)]; rewrite He; [split; reflexivity|].
  unfold query_nearest. rewrite Hdb. split; reflexivity.
Qed.

Lemma search_similar_pairs_failure_witness :
  (embed_query unreachable_world (lit "insurance guidelines") = inl (lit "Connection refused") \/
   exists q, embed_query unreachable_world (lit "insurance guidelines") = inr q /\
             w_db_error unreachable_world (QNearest q (validate_top_k 3)) = Some (lit "Connection refused")) /\
  SearchSimilarTool.search_similar_pairs unreachable_world (lit "insurance guidelines") (lit "chinese") 3 =
    search_error (lit "Connection refused") (lit "chinese") /\
  Server.search_similar_pairs unreachable_world (lit "insurance guidelines") (lit "chinese") 3 =
    search_error (lit "Connection refused") (lit "chinese").
Proof.
  split; [left; reflexivity|].
  apply search_similar_pairs_failure. left; reflexivity.
Defined.

(** C4 (counterexample): with the embedding endpoint unreachable, the
    response of both variants holds the error message together with every
    key of the success payload. *)
Lemma search_similar_pairs_error_with_success_keys :
  let r1 := SearchSimilarTool.search_similar_pairs unreachable_world
              (lit "insurance guidelines") (lit "chinese") 3 in
  let r2 := Server.search_similar_pairs unreachable_world
              (lit "insurance guidelines") (lit "chinese") 3 in
  forallb (fun k => has_key k r1 && has_key k r2)
    ["error"; "pairs"; "total_found"; "query_language"; "target_language"] = true.
Proof. vm_compute. reflexivity. Qed.

(** C4 (amended): every response of both variants is one of two dicts.
    The success dict has the keys [pairs], [total_found], [query_language]
    (["zh"] or ["en"]) and [target_language], and no ["error"] key.  The
    error dict has the same four keys ([pairs] empty, [total_found] 0,
    [query_language] ["unknown"]) plus ["error"].  The presence of
    ["error"] tells the two apart. *)
Theorem search_similar_pairs_error_key_discriminates w user_input target_language top_k :
  response_shape target_language
    (SearchSimilarTool.search_similar_pairs w user_input target_language top_k) /\
  response_shape target_language
    (Server.search_similar_pairs w user_input target_language top_k).
Proof.
  rewrite tool_pipeline, server_pipeline. split; apply pipeline_shape.
Qed.

(** C5: the effective [k] is [top_k] inside [1, 20], 1 below and 20 above,
    and the response of both variants for any [top_k] is the response for
    the clamped value: the original value never shows in the response. *)
Theorem validate_top_k_clamps top_k :
  validate_top_k top_k = (if top_k <? 1 then 1 else if 20 <? top_k then 20 else top_k) /\
  forall w user_input target_language,
    SearchSimilarTool.search_similar_pairs w user_input target_language top_k =
      SearchSimilarTool.search_similar_pairs w user_input target_language (validate_top_k top_k) /\
    Server.search_similar_pairs w user_input target_language top_k =
      Server.search_similar_pairs w user_input target_language (validate_top_k top_k).
Proof.
  split.
  - unfold validate_top_k.
    destruct (1 <=? top_k) eqn:E1, (top_k <=? 20) eqn:E2, (top_k <? 1) eqn:E3, (20 <? top_k) eqn:E4;
      rewrite ?Z.leb_le, ?Z.leb_gt, ?Z.ltb_lt, ?Z.ltb_ge in *; simpl; lia.
  - intros w u t. rewrite !tool_pipeline, !server_pipeline. unfold pipeline.
    rewrite validate_top_k_idem. split; reflexivity.
Qed.

(** C6: [detect_language] is a total function of the text that returns
    ["zh"] exactly when the code points in U+4E00..U+9FFF outnumber the ASCII
    letters, and ["en"] otherwise (ties and the empty text included); the
    spec's three examples hold. *)
Theorem detect_language_spec text :
  (detect_language text = lit "zh" <-> (cjk_count text > latin_count text)%nat) /\
  (detect_language text = lit "en" <-> (cjk_count text <= latin_count text)%nat) /\
  detect_language (lit "hello world") = lit "en" /\
  detect_language baoxian_tiaokuan = lit "zh" /\
  detect_language [] = lit "en".
Proof.
  assert (Hen : forall c, (py_isascii c && py_isalpha_ascii c) =
                 ((65 <=? c) && (c <=? 90)) || ((97 <=? c) && (c <=? 122))).
  { intro c. unfold py_isascii, py_isalpha_ascii.
    destruct (65 <=? c) eqn:A1, (c <=? 90) eqn:A2, (97 <=? c) eqn:A3, (c <=? 122) eqn:A4,
             (0 <=? c) eqn:A5, (c <? 128) eqn:A6;
      rewrite ?Z.leb_le, ?Z.leb_gt, ?Z.ltb_lt, ?Z.ltb_ge in *; simpl; try reflexivity; lia. }
  unfold detect_language. rewrite !py_sum_if_count.
  rewrite (filter_ext _ _ Hen).
  fold (cjk_count text) (latin_count text).
  split; [|split; [|split; [|split]]]; try reflexivity.
  - destruct (Z.of_nat (cjk_count text) >? Z.of_nat (latin_count text)) eqn:E;
      rewrite ?Z.gtb_lt, ?Z.gtb_ltb, ?Z.ltb_lt, ?Z.ltb_ge in *; split; intro H;
      try lia; try reflexivity; discriminate.
  - destruct (Z.of_nat (cjk_count text) >? Z.of_nat (latin_count text)) eqn:E;
      rewrite ?Z.gtb_lt, ?Z.gtb_ltb, ?Z.ltb_lt, ?Z.ltb_ge in *; split; intro H;
      try lia; try reflexivity; discriminate.
Qed.

(** C7 (counterexample): with the store down, [health_check] of
    search_similar_tool.py still reports ["healthy"], without a
    ["database"] key, while the one of server.py reports ["unhealthy"]. *)
Lemma health_check_healthy_without_store :
  w_db_error db_down_world QSelect1 = Some (lit "could not connect to server") /\
  dict_get "status" SearchSimilarTool.health_check = Some (PStr (lit "healthy")) /\
  has_key "database" SearchSimilarTool.health_check = false /\
  dict_get "status" (Server.health_check db_down_world) = Some (PStr (lit "unhealthy")).
Proof. vm_compute. repeat split. Qed.

(** C7 (amended): the [health_check] of server.py runs [SELECT 1] on a
    session and reports ["healthy"] with ["database": "connected"] when it
    succeeds and ["unhealthy"] with ["error": str(e)] when it raises [e];
    the one of search_similar_tool.py makes no store access and always
    reports ["healthy"] with the service name only. *)
Theorem health_check_outcomes w :
  ((w_db_error w QSelect1 = None /\
    Server.health_check w =
      [("status", PStr (lit "healthy")); ("service", PStr (lit "search_similar_tool"));
       ("database", PStr (lit "connected"))]) \/
   (exists e, w_db_error w QSelect1 = Some e /\
    Server.health_check w =
      [("status", PStr (lit "unhealthy")); ("service", PStr (lit "search_similar_tool"));
       ("error", PStr e)])) /\
  SearchSimilarTool.health_check =
    [("status", PStr (lit "healthy")); ("service", PStr (lit "search_similar_tool"))].
Proof.
  split; [|reflexivity].
  unfold Server.health_check. destruct (w_db_error w QSelect1) as [e|].
  - right. exists e. split; reflexivity.
  - left. split; reflexivity.
Qed.

(** C8 (counterexample): an id absent from a reachable store and a store
    that raises both give the same single-key [{"error": ...}] dict: the
    not-found outcome is reported as an error. *)
Lemma get_translation_pair_not_found_is_error :
  w_db_error demo_world (QById 7) = None /\
  forallb (fun r => negb (id r =? 7)) (w_table demo_world) = true /\
  keys (Server.get_translation_pair demo_world 7) = ["error"] /\
  dict_get "error" (Server.get_translation_pair demo_world 7) =
    Some (PStr (lit "Translation pair with ID 7 not found")) /\
  keys (Server.get_translation_pair db_down_world 7) = ["error"] /\
  dict_get "error" (Server.get_translation_pair db_down_world 7) =
    Some (PStr (lit "Error retrieving translation pair: could not connect to server")).
Proof. vm_compute. repeat split. Qed.

(** C8 (amended): [get_translation_pair] of server.py has three outcomes.
    (1) The lookup raises [e]: the result is
    [{"error": "Error retrieving translation pair: " + str(e)}].
    (2) No row has the id: the result is
    [{"error": "Translation pair with ID <id> not found"}].
    (3) A row has the id: the result is the dict of the first such row:
    its id, gl_number, row_number, version, effective_date (None when
    NULL), english_text and chinese_text, and created_at None (server.py's
    table maps no created_at), with no ["error"] key.
    Not-found and failure have the same [{"error": msg}] shape; only the
    message text tells them apart, and the two messages always differ.
    The result does not depend on the embedding endpoint. *)
Theorem get_translation_pair_outcomes w pair_id :
  let r := Server.get_translation_pair w pair_id in
  ((exists e, w_db_error w (QById pair_id) = Some e /\
     r = [("error", PStr (lit "Error retrieving translation pair: " ++ e))]) \/
   (w_db_error w (QById pair_id) = None /\
     (forall row, In row (w_table w) -> id row <> pair_id) /\
     r = [("error", PStr (lit "Translation pair with ID " ++ py_str_int pair_id
                          ++ lit " not found"))]) \/
   (w_db_error w (QById pair_id) = None /\
     exists row, find (fun x => id x =? pair_id) (w_table w) = Some row /\
       In row (w_table w) /\ id row = pair_id /\
       r = [("id", PInt pair_id);
            ("gl_number", opt_str (gl_number row));
            ("row_number", opt_str (row_number row));
            ("version", opt_str (version row));
            ("effective_date", opt_str (effective_date row));
            ("english_text", PStr (english_text row));
            ("chinese_text", PStr (chinese_text row));
            ("created_at", PNone)] /\
       has_key "error" r = false)) /\
  (forall e, lit "Translation pair with ID " ++ py_str_int pair_id ++ lit " not found" <>
             lit "Error retrieving translation pair: " ++ e) /\
  (forall f, Server.get_translation_pair
               {| w_embed_documents := f; w_table := w_table w;
                  w_db_error := w_db_error w; w_cosine_distance := w_cosine_distance w |}
               pair_id = r).
Proof.
  intro r. split; [|split].
  - subst r. unfold Server.get_translation_pair.
    destruct (w_db_error w (QById pair_id)) as [e|]; [left; exists e; split; reflexivity|].
    right. destruct (find (fun x => id x =? pair_id) (w_table w)) as [row|] eqn:Hf.
    + right. split; [reflexivity|]. exists row.
      pose proof (find_some _ _ Hf) as [Hin Hid]. apply Z.eqb_eq in Hid.
      split; [reflexivity|split; [exact Hin|split; [exact Hid|]]].
      rewrite Hid. split; reflexivity.
    + left. split; [reflexivity|]. split; [|reflexivity].
      intros row Hin Hid. apply (find_none _ _ Hf) in Hin.
      rewrite Hid, Z.eqb_refl in Hin. discriminate.
  - intros e H. discriminate H.
  - intro f. reflexivity.
Qed.

(** C9 (counterexample): a stored row with a [created_at] value gets
    ["created_at": None] in its metadata from server.py, whose ORM class
    maps no [created_at] column. *)
Lemma server_row_to_pair_drops_created_at :
  let row := demo_row 2 "insurance guidelines" "ins" [1; 0]%Q
               (Some {| ts_str := lit "2024-01-01 00:00:00+00:00" |}) in
  created_at row <> None /\
  pair_field "metadata" (Server.row_to_pair row) = Some (PDict [("created_at", PNone)]).
Proof. split; [discriminate|reflexivity]. Qed.

(** C9 (amended): both conversions set ["context"] to the row's
    [english_text].  In search_similar_tool.py the metadata holds
    ["created_at"] as [str(created_at)] when the row has a value and [None]
    when it has none.  In server.py it is always [None]. *)
Theorem row_to_pair_context_metadata row :
  pair_field "context" (SearchSimilarTool.row_to_pair row) = Some (PStr (english_text row)) /\
  pair_field "context" (Server.row_to_pair row) = Some (PStr (english_text row)) /\
  pair_field "english_text" (SearchSimilarTool.row_to_pair row) = Some (PStr (english_text row)) /\
  pair_field "english_text" (Server.row_to_pair row) = Some (PStr (english_text row)) /\
  pair_field "metadata" (SearchSimilarTool.row_to_pair row) =
    Some (PDict [("created_at", match created_at row with
                                | Some t => PStr (ts_str t)
                                | None => PNone
                                end)]) /\
  pair_field "metadata" (Server.row_to_pair row) = Some (PDict [("created_at", PNone)]).
Proof. repeat split. Qed.

(** C10: [target_language] is only echoed: for the same world, text and
    [top_k], the responses of both variants for two target languages differ
    only in the value of ["target_language"], which is the argument. *)
Theorem search_similar_pairs_target_language_echo w user_input top_k t1 t2 :
  SearchSimilarTool.search_similar_pairs w user_input t2 top_k =
    dict_set "target_language" (PStr t2)
      (SearchSimilarTool.search_similar_pairs w user_input t1 top_k) /\
  Server.search_similar_pairs w user_input t2 top_k =
    dict_set "target_language" (PStr t2)
      (Server.search_similar_pairs w user_input t1 top_k) /\
  dict_get "target_language" (SearchSimilarTool.search_similar_pairs w user_input t1 top_k) =
    Some (PStr t1) /\
  dict_get "target_language" (Server.search_similar_pairs w user_input t1 top_k) =
    Some (PStr t1).
Proof.
  rewrite !tool_pipeline, !server_pipeline. unfold pipeline.
  destruct (embed_query w user_input) as [e|q]; [repeat split|].
  destruct (query_nearest w q (validate_top_k top_k)); repeat split.
Qed.

(** ** Further properties of the code *)

Lemma order_by_strongly_sorted {A} (key : A -> Q) l :
  StronglySorted (fun a b => (key a <= key b)%Q) (order_by key l).
Proof.
  apply Sorted_StronglySorted; [intros a b c; apply Qle_trans|apply order_by_sorted].
Qed.

Lemma firstn_skipn_le {A} (R : A -> A -> Prop) n l :
  StronglySorted R l -> forall x y, In x (firstn n l) -> In y (skipn n l) -> R x y.
Proof.
  revert l. induction n as [|n IH]; intros l Hs x y Hx Hy; [destruct Hx|].
  destruct l as [|a l]; [destruct Hx|].
  apply StronglySorted_inv in Hs as [Hs Hall].
  destruct Hx as [<-|Hx].
  - rewrite Forall_forall in Hall. apply Hall. simpl in Hy.
    rewrite <- (firstn_skipn n l). apply in_or_app. right. exact Hy.
  - eapply IH; eassumption.
Qed.

(** X1: a successful ranked query keeps the [k] nearest rows: no row of the
    table left out is closer to the query vector than a row returned, and
    both variants return exactly the returned rows, converted. *)
Theorem search_similar_pairs_k_nearest w user_input target_language top_k q :
  embed_query w user_input = inr q ->
  w_db_error w (QNearest q (validate_top_k top_k)) = None ->
  exists retrieved rest,
    SearchSimilarTool.search_similar_pairs w user_input target_language top_k =
      search_success (map SearchSimilarTool.row_to_pair retrieved)
        (detect_language user_input) target_language /\
    Server.search_similar_pairs w user_input target_language top_k =
      search_success (map Server.row_to_pair retrieved)
        (detect_language user_input) target_language /\
    Permutation (retrieved ++ rest) (w_table w) /\
    forall x y, In x retrieved -> In y rest ->
      (row_distance w q x <= row_distance w q y)%Q.
Proof.
  intros He Hdb.
  set (sorted := order_by (row_distance w q) (w_table w)).
  set (n := Z.to_nat (validate_top_k top_k)).
  exists (firstn n sorted), (skipn n sorted).
  rewrite tool_pipeline, server_pipeline. unfold pipeline, query_nearest.
  rewrite He, Hdb. split; [reflexivity|]. split; [reflexivity|]. split.
  - rewrite firstn_skipn. symmetry. apply order_by_perm.
  - apply firstn_skipn_le, order_by_strongly_sorted.
Qed.

Lemma search_similar_pairs_k_nearest_witness :
  embed_query demo_world (lit "insurance guidelines") = inr [1; 0]%Q /\
  w_db_error demo_world (QNearest [1; 0]%Q (validate_top_k 2)) = None /\
  exists retrieved rest,
    SearchSimilarTool.search_similar_pairs demo_world (lit "insurance guidelines") (lit "chinese") 2 =
      search_success (map SearchSimilarTool.row_to_pair retrieved)
        (detect_language (lit "insurance guidelines")) (lit "chinese") /\
    Server.search_similar_pairs demo_world (lit "insurance guidelines") (lit "chinese") 2 =
      search_success (map Server.row_to_pair retrieved)
        (detect_language (lit "insurance guidelines")) (lit "chinese") /\
    Permutation (retrieved ++ rest) (w_table demo_world) /\
    forall x y, In x retrieved -> In y rest ->
      (row_distance demo_world [1; 0]%Q x <= row_distance demo_world [1; 0]%Q y)%Q.
Proof.
  split; [reflexivity|]. split; [reflexivity|].
  apply search_similar_pairs_k_nearest; reflexivity.
Defined.

(** X2: when the endpoint answers with no vectors, [embed_query]'s [[0]]
    raises and both variants return the error dict with the message
    "list index out of range". *)
Theorem search_similar_pairs_empty_embedding w user_input target_language top_k :
  w_embed_documents w [user_input] = inr [] ->
  SearchSimilarTool.search_similar_pairs w user_input target_language top_k =
    search_error (lit "list index out of range") target_language /\
  Server.search_similar_pairs w user_input target_language top_k =
    search_error (lit "list index out of range") target_language.
Proof.
  intro H. rewrite tool_pipeline, server_pipeline. unfold pipeline, embed_query.
  rewrite H. split; reflexivity.
Qed.

Lemma search_similar_pairs_empty_embedding_witness :
  w_embed_documents empty_reply_world [lit "payment terms"] = inr [] /\
  SearchSimilarTool.search_similar_pairs empty_reply_world (lit "payment terms") (lit "chinese") 5 =
    search_error (lit "list index out of range") (lit "chinese") /\
  Server.search_similar_pairs empty_reply_world (lit "payment terms") (lit "chinese") 5 =
    search_error (lit "list index out of range") (lit "chinese").
Proof.
  split; [reflexivity|]. apply search_similar_pairs_empty_embedding. reflexivity.
Defined.

Lemma render_pairs_rows i rows :
  SearchSimilarTool.render_pairs i (map SearchSimilarTool.row_to_pair rows) =
  inr (Server.render_rows i rows).
Proof.
  revert i. induction rows as [|row rows IH]; intro i; [reflexivity|].
  simpl. rewrite IH. reflexivity.
Qed.

(** X3: on a successful query of a non-empty table, the resource
    [search://results/{query}] of search_similar_tool.py and of server.py
    list the same entries, the five rows nearest to the query numbered from
    1; the headers differ only in the line "Target Language: chinese" that
    server.py does not print. *)
Theorem search_results_resources_success w query q :
  embed_query w query = inr q ->
  w_db_error w (QNearest q 5) = None ->
  w_table w <> [] ->
  let retrieved := firstn 5 (order_by (row_distance w q) (w_table w)) in
  SearchSimilarTool.get_search_results w query =
    lit "Search Results for: '" ++ query ++ lit "'" ++ nl ++
    lit "Query Language: " ++ detect_language query ++ nl ++
    lit "Target Language: " ++ lit "chinese" ++ nl ++
    lit "Total Found: " ++ py_str_int (Z.of_nat (List.length retrieved)) ++ nl ++ nl ++
    Server.render_rows 1 retrieved /\
  Server.get_search_results_resource w query =
    lit "Search Results for: '" ++ query ++ lit "'" ++ nl ++
    lit "Query Language: " ++ detect_language query ++ nl ++
    lit "Total Found: " ++ py_str_int (Z.of_nat (List.length retrieved)) ++ nl ++ nl ++
    Server.render_rows 1 retrieved.
Proof.
  intros He Hdb Hne retrieved.
  assert (Hr : retrieved <> []).
  { unfold retrieved. intro H.
    destruct (order_by (row_distance w q) (w_table w)) as [|r rs] eqn:E; [|discriminate].
    apply Hne, Permutation_nil, Permutation_sym. rewrite <- E. apply order_by_perm. }
  split.
  - unfold SearchSimilarTool.get_search_results. rewrite tool_pipeline.
    unfold pipeline. rewrite He.
    replace (validate_top_k 5) with 5 by reflexivity.
    unfold query_nearest. rewrite Hdb. change (Z.to_nat 5) with 5%nat. fold retrieved.
    cbn [bind ret has_key keys search_success py_getitem dict_get py_iter].
    simpl. rewrite render_pairs_rows. simpl.
    rewrite length_map. reflexivity.
  - unfold Server.get_search_results_resource. rewrite He. cbn [bind].
    unfold query_nearest. rewrite Hdb. change (Z.to_nat 5) with 5%nat. fold retrieved.
    cbn [bind ret].
    destruct retrieved as [|r rs]; [congruence|]. reflexivity.
Qed.

Lemma search_results_resources_success_witness :
  embed_query demo_world (lit "insurance guidelines") = inr [1; 0]%Q /\
  w_db_error demo_world (QNearest [1; 0]%Q 5) = None /\
  w_table demo_world <> [] /\
  let retrieved := firstn 5 (order_by (row_distance demo_world [1; 0]%Q) (w_table demo_world)) in
  SearchSimilarTool.get_search_results demo_world (lit "insurance guidelines") =
    lit "Search Results for: '" ++ lit "insurance guidelines" ++ lit "'" ++ nl ++
    lit "Query Language: " ++ detect_language (lit "insurance guidelines") ++ nl ++
    lit "Target Language: " ++ lit "chinese" ++ nl ++
    lit "Total Found: " ++ py_str_int (Z.of_nat (List.length retrieved)) ++ nl ++ nl ++
    Server.render_rows 1 retrieved /\
  Server.get_search_results_resource demo_world (lit "insurance guidelines") =
    lit "Search Results for: '" ++ lit "insurance guidelines" ++ lit "'" ++ nl ++
    lit "Query Language: " ++ detect_language (lit "insurance guidelines") ++ nl ++
    lit "Total Found: " ++ py_str_int (Z.of_nat (List.length retrieved)) ++ nl ++ nl ++
    Server.render_rows 1 retrieved.
Proof.
  split; [reflexivity|]. split; [reflexivity|]. split; [discriminate|].
  apply search_results_resources_success; [reflexivity|reflexivity|discriminate].
Defined.

(** X4: on a successful query of an empty table, search_similar_tool.py's
    resource prints its header with "Total Found: 0" and no entry, while
    server.py's prints "No search results found for: '<query>'". *)
Theorem search_results_resources_empty_table w query q :
  embed_query w query = inr q ->
  w_db_error w (QNearest q 5) = None ->
  w_table w = [] ->
  SearchSimilarTool.get_search_results w query =
    lit "Search Results for: '" ++ query ++ lit "'" ++ nl ++
    lit "Query Language: " ++ detect_language query ++ nl ++
    lit "Target Language: " ++ lit "chinese" ++ nl ++
    lit "Total Found: 0" ++ nl ++ nl /\
  Server.get_search_results_resource w query =
    lit "No search results found for: '" ++ query ++ lit "'".
Proof.
  intros He Hdb Ht. split.
  - unfold SearchSimilarTool.get_search_results. rewrite tool_pipeline.
    unfold pipeline. rewrite He.
    replace (validate_top_k 5) with 5 by reflexivity.
    unfold query_nearest. rewrite Hdb, Ht. simpl.
    reflexivity.
  - unfold Server.get_search_results_resource. rewrite He. cbn [bind].
    unfold query_nearest. rewrite Hdb, Ht. reflexivity.
Qed.

Lemma search_results_resources_empty_table_witness :
  embed_query empty_table_world (lit "payment terms") = inr [1; 0]%Q /\
  w_db_error empty_table_world (QNearest [1; 0]%Q 5) = None /\
  w_table empty_table_world = [] /\
  SearchSimilarTool.get_search_results empty_table_world (lit "payment terms") =
    lit "Search Results for: '" ++ lit "payment terms" ++ lit "'" ++ nl ++
    lit "Query Language: " ++ detect_language (lit "payment terms") ++ nl ++
    lit "Target Language: " ++ lit "chinese" ++ nl ++
    lit "Total Found: 0" ++ nl ++ nl /\
  Server.get_search_results_resource empty_table_world (lit "payment terms") =
    lit "No search results found for: '" ++ lit "payment terms" ++ lit "'".
Proof.
  split; [reflexivity|]. split; [reflexivity|]. split; [reflexivity|].
  apply (search_results_resources_empty_table _ _ [1; 0]%Q); reflexivity.
Defined.

(** X5: when the embedding endpoint or the store raises [e], the resource of
    search_similar_tool.py prints "Search Error: " and the error entry of
    [search_similar_pairs], while server.py's prints
    "Error performing search: " and [e]. *)
Theorem search_results_resources_failure w query e :
  (embed_query w query = inl e \/
   exists q, embed_query w query = inr q /\ w_db_error w (QNearest q 5) = Some e) ->
  SearchSimilarTool.get_search_results w query =
    lit "Search Error: " ++ lit "Error searching for similar pairs: " ++ e /\
  Server.get_search_results_resource w query = lit "Error performing search: " ++ e.
Proof.
  intros [He | [q [He Hdb]]].
  - unfold SearchSimilarTool.get_search_results, Server.get_search_results_resource.
    rewrite tool_pipeline. unfold pipeline. rewrite He. split; reflexivity.
  - unfold SearchSimilarTool.get_search_results, Server.get_search_results_resource.
    rewrite tool_pipeline. unfold pipeline. rewrite He. cbn [bind].
    replace (validate_top_k 5) with 5 by reflexivity.
    unfold query_nearest. rewrite Hdb. split; reflexivity.
Qed.

Lemma search_results_resources_failure_witness :
  embed_query unreachable_world (lit "payment terms") = inl (lit "Connection refused") /\
  SearchSimilarTool.get_search_results unreachable_world (lit "payment terms") =
    lit "Search Error: " ++ lit "Error searching for similar pairs: " ++ lit "Connection refused" /\
  Server.get_search_results_resource unreachable_world (lit "payment terms") =
    lit "Error performing search: " ++ lit "Connection refused".
Proof.
  split; [reflexivity|]. apply search_results_resources_failure. left. reflexivity.
Defined.

Lemma py_split_char_not_nil c s : Server.py_split_char c s <> [].
Proof.
  destruct s as [|x s]; simpl; [discriminate|].
  destruct (x =? c); [discriminate|]. destruct (Server.py_split_char c s); discriminate.
Qed.

Lemma py_split_char_app c a s :
  existsb (fun x => x =? c) a = false ->
  Server.py_split_char c (a ++ s) =
    match Server.py_split_char c s with
    | r :: rs => (a ++ r) :: rs
    | [] => [a]
    end.
Proof.
  induction a as [|x a IH]; simpl; intro H.
  - destruct (Server.py_split_char c s) eqn:E; [|reflexivity].
    exfalso. exact (py_split_char_not_nil c s E).
  - apply orb_false_iff in H as [Hx Ha]. rewrite Hx, IH by exact Ha.
    destruct (Server.py_split_char c s); reflexivity.
Qed.

Lemma py_split_char_nosep c a :
  existsb (fun x => x =? c) a = false -> Server.py_split_char c a = [a].
Proof.
  intro H. rewrite <- (app_nil_r a) at 1. rewrite py_split_char_app by exact H.
  simpl. rewrite app_nil_r. reflexivity.
Qed.

Lemma py_split_char_two c s :
  existsb (fun x => x =? c) s = true ->
  exists a b rest, Server.py_split_char c s = a :: b :: rest.
Proof.
  induction s as [|x s IH]; simpl; [discriminate|]. intro H.
  destruct (x =? c).
  - destruct (Server.py_split_char c s) as [|b rest] eqn:E.
    + exfalso. exact (py_split_char_not_nil c s E).
    + exists [], b, rest. reflexivity.
  - destruct (IH H) as (a & b & rest & E). rewrite E. exists (x :: a), b, rest. reflexivity.
Qed.

(** X6: [get_service_info] never raises: when the URL contains '@' its
    [split('@')] has a second piece. *)
Theorem get_service_info_total database_url :
  exists info, Server.get_service_info database_url = inr info.
Proof.
  unfold Server.get_service_info.
  destruct (existsb (fun c => c =? 64) database_url) eqn:E.
  - destruct (py_split_char_two 64 database_url E) as (a & b & rest & Hs).
    rewrite Hs. eexists. reflexivity.
  - eexists. reflexivity.
Qed.

(** X7: a database URL without '@' is reported as "configured". *)
Theorem get_service_info_no_at database_url :
  existsb (fun c => c =? 64) database_url = false ->
  exists info, Server.get_service_info database_url = inr info /\
               database_url_of info = Some (PStr (lit "configured")).
Proof.
  intro H. unfold Server.get_service_info. rewrite H. eexists. split; reflexivity.
Qed.

Lemma get_service_info_no_at_witness :
  existsb (fun c => c =? 64) (lit "sqlite:///local.db") = false /\
  exists info, Server.get_service_info (lit "sqlite:///local.db") = inr info /\
               database_url_of info = Some (PStr (lit "configured")).
Proof.
  split; [reflexivity|]. apply get_service_info_no_at. reflexivity.
Defined.

(** X8: a URL [credentials@location] with one '@' is reported as its
    [location], the part after the '@'. *)
Theorem get_service_info_one_at credentials location :
  existsb (fun c => c =? 64) credentials = false ->
  existsb (fun c => c =? 64) location = false ->
  exists info, Server.get_service_info (credentials ++ lit "@" ++ location) = inr info /\
               database_url_of info = Some (PStr location).
Proof.
  intros Hc Hl. unfold Server.get_service_info.
  rewrite existsb_app. simpl. rewrite orb_true_r.
  rewrite py_split_char_app by exact Hc. simpl.
  rewrite py_split_char_nosep by exact Hl. simpl.
  eexists. split; reflexivity.
Qed.

Lemma get_service_info_one_at_witness :
  existsb (fun c => c =? 64) (lit "postgresql://admin:secret") = false /\
  existsb (fun c => c =? 64) (lit "db.example.com:5432/postgres") = false /\
  exists info, Server.get_service_info
                 (lit "postgresql://admin:secret" ++ lit "@" ++ lit "db.example.com:5432/postgres")
                 = inr info /\
               database_url_of info = Some (PStr (lit "db.example.com:5432/postgres")).
Proof.
  split; [reflexivity|]. split; [reflexivity|].
  apply get_service_info_one_at; reflexivity.
Defined.

(** X9: when the password itself contains '@', the reported URL is the
    text between the first two '@': a piece of the password, not the host. *)
Theorem get_service_info_two_at user_part password_tail rest :
  existsb (fun c => c =? 64) user_part = false ->
  existsb (fun c => c =? 64) password_tail = false ->
  exists info,
    Server.get_service_info (user_part ++ lit "@" ++ password_tail ++ lit "@" ++ rest) = inr info /\
    database_url_of info = Some (PStr password_tail).
Proof.
  intros Hu Hp. unfold Server.get_service_info.
  rewrite existsb_app. simpl. rewrite orb_true_r.
  rewrite py_split_char_app by exact Hu. simpl.
  rewrite py_split_char_app by exact Hp. simpl. rewrite app_nil_r.
  eexists. split; reflexivity.
Qed.

Lemma get_service_info_two_at_witness :
  existsb (fun c => c =? 64) (lit "postgresql://admin:p") = false /\
  existsb (fun c => c =? 64) (lit "ss") = false /\
  exists info,
    Server.get_service_info
      (lit "postgresql://admin:p" ++ lit "@" ++ lit "ss" ++ lit "@" ++ lit "host:5431/db") = inr info /\
    database_url_of info = Some (PStr (lit "ss")).
Proof.
  split; [reflexivity|]. split; [reflexivity|].
  apply get_service_info_two_at; reflexivity.
Defined.

Lemma raise_for_status_ok r :
  ~ (400 <= status_code r < 600) -> Embeddings.raise_for_status r = inr tt.
Proof.
  intro H. unfold Embeddings.raise_for_status.
  destruct (Z.leb_spec 400 (status_code r)), (Z.ltb_spec (status_code r) 500),
           (Z.leb_spec 500 (status_code r)), (Z.ltb_spec (status_code r) 600);
    simpl; try reflexivity; lia.
Qed.

Lemma exc_map_forall2 {A B} (f : A -> Exc B) xs ys :
  Forall2 (fun x y => f x = inr y) xs ys -> Embeddings.exc_map f xs = inr ys.
Proof.
  induction 1 as [|x y xs ys Hxy _ IH]; [reflexivity|].
  simpl. rewrite Hxy. cbn [bind]. rewrite IH. reflexivity.
Qed.

(** X10: a response with a status in [400, 600) makes [embed_documents]
    raise the [HTTPError] of [raise_for_status]: "<status> Client Error"
    below 500, "<status> Server Error" from 500 on, then the reason and
    the URL. *)
Theorem embed_documents_http_error self post texts resp :
  post (Embeddings.endpoint self) (embed_payload self texts) = inr resp ->
  400 <= status_code resp < 600 ->
  Embeddings.embed_documents self post texts =
    inl (py_str_int (status_code resp) ++
         (if status_code resp <? 500 then lit " Client Error: " else lit " Server Error: ") ++
         reason resp ++ lit " for url: " ++ url resp).
Proof.
  intros Hpost Hs. unfold Embeddings.embed_documents. unfold embed_payload in Hpost.
  cbv zeta. rewrite Hpost. cbn [bind]. unfold Embeddings.raise_for_status.
  destruct (Z.leb_spec 400 (status_code resp)), (Z.ltb_spec (status_code resp) 500),
           (Z.leb_spec 500 (status_code resp)), (Z.ltb_spec (status_code resp) 600);
    simpl; try reflexivity; lia.
Qed.

Lemma embed_documents_http_error_witness :
  reply 404 (JObj []) (Embeddings.endpoint demo_client) (embed_payload demo_client [lit "terms"])
    = inr {| status_code := 404; reason := lit "Not Found";
             url := Embeddings.endpoint demo_client; json_body := inr (JObj []) |} /\
  400 <= 404 < 600 /\
  Embeddings.embed_documents demo_client (reply 404 (JObj [])) [lit "terms"] =
    inl (py_str_int 404 ++ (if 404 <? 500 then lit " Client Error: " else lit " Server Error: ") ++
         lit "Not Found" ++ lit " for url: " ++ Embeddings.endpoint demo_client).
Proof.
  split; [reflexivity|]. split; [lia|].
  apply (embed_documents_http_error _ _ _
           {| status_code := 404; reason := lit "Not Found";
              url := Embeddings.endpoint demo_client; json_body := inr (JObj []) |});
    [reflexivity|simpl; lia].
Defined.

(** X11: with a status outside [400, 600) and a body whose "data" is a list
    of objects each holding an "embedding", [embed_documents] returns these
    embeddings, one per item and in the order of the items. *)
Theorem embed_documents_success self post texts resp data items es :
  post (Embeddings.endpoint self) (embed_payload self texts) = inr resp ->
  ~ (400 <= status_code resp < 600) ->
  json_body resp = inr data ->
  Embeddings.json_getitem data (lit "data") = inr (JArr items) ->
  Forall2 (fun item e => Embeddings.json_getitem item (lit "embedding") = inr e) items es ->
  Embeddings.embed_documents self post texts = inr es.
Proof.
  intros Hpost Hs Hb Hd Hes. unfold Embeddings.embed_documents. unfold embed_payload in Hpost.
  cbv zeta. rewrite Hpost. cbn [bind]. rewrite raise_for_status_ok by exact Hs.
  cbn [bind]. rewrite Hb. cbn [bind]. rewrite Hd. cbn [bind Embeddings.json_iter ret].
  apply exc_map_forall2. exact Hes.
Qed.

Lemma embed_documents_success_witness :
  let resp := {| status_code := 200; reason := lit "OK"; url := Embeddings.endpoint demo_client;
                 json_body := inr (data_body [JArr [JFloat 1; JFloat 0]; JArr [JFloat 0; JFloat 1]]) |} in
  (fun _ _ => ret resp : Exc Response) (Embeddings.endpoint demo_client)
      (embed_payload demo_client [lit "a"; lit "b"]) = inr resp /\
  ~ (400 <= status_code resp < 600) /\
  Embeddings.embed_documents demo_client (fun _ _ => ret resp) [lit "a"; lit "b"] =
    inr [JArr [JFloat 1; JFloat 0]; JArr [JFloat 0; JFloat 1]].
Proof.
  intro resp. split; [reflexivity|]. split; [simpl; lia|].
  eapply (embed_documents_success _ _ _ resp); [reflexivity|simpl; lia|reflexivity|reflexivity|].
  repeat constructor.
Defined.

(** X12: [embed_query] returns the first embedding of the reply, and
    raises "list index out of range" when the "data" list is empty. *)
Theorem embed_query_first self post text resp data items es :
  post (Embeddings.endpoint self) (embed_payload self [text]) = inr resp ->
  ~ (400 <= status_code resp < 600) ->
  json_body resp = inr data ->
  Embeddings.json_getitem data (lit "data") = inr (JArr items) ->
  Forall2 (fun item e => Embeddings.json_getitem item (lit "embedding") = inr e) items es ->
  Embeddings.embed_query self post text =
    match es with
    | [] => inl (lit "list index out of range")
    | e :: _ => inr e
    end.
Proof.
  intros Hpost Hs Hb Hd Hes. unfold Embeddings.embed_query.
  erewrite embed_documents_success by eassumption. destruct es; reflexivity.
Qed.

Lemma embed_query_first_witness :
  let resp := {| status_code := 200; reason := lit "OK"; url := Embeddings.endpoint demo_client;
                 json_body := inr (data_body []) |} in
  (fun _ _ => ret resp : Exc Response) (Embeddings.endpoint demo_client)
      (embed_payload demo_client [lit "a"]) = inr resp /\
  ~ (400 <= status_code resp < 600) /\
  Embeddings.embed_query demo_client (fun _ _ => ret resp) (lit "a") =
    inl (lit "list index out of range").
Proof.
  intro resp. split; [reflexivity|]. split; [simpl; lia|].
  exact (embed_query_first demo_client (fun _ _ => ret resp) (lit "a") resp (data_body []) [] []
           eq_refl ltac:(simpl; lia) eq_refl eq_refl (Forall2_nil _)).
Defined.

(** X13: a reply body without a "data" key makes [embed_documents] raise
    [KeyError('data')], whose text is "'data'". *)
Theorem embed_documents_missing_data self post texts resp d :
  post (Embeddings.endpoint self) (embed_payload self texts) = inr resp ->
  ~ (400 <= status_code resp < 600) ->
  json_body resp = inr (JObj d) ->
  Embeddings.json_lookup (lit "data") d = None ->
  Embeddings.embed_documents self post texts = inl (lit "'data'").
Proof.
  intros Hpost Hs Hb Hd. unfold Embeddings.embed_documents. unfold embed_payload in Hpost.
  cbv zeta. rewrite Hpost. cbn [bind]. rewrite raise_for_status_ok by exact Hs.
  cbn [bind]. rewrite Hb. cbn [bind Embeddings.json_getitem]. rewrite Hd. reflexivity.
Qed.

Lemma embed_documents_missing_data_witness :
  let body := JObj [(lit "object", JStr (lit "error")); (lit "message", JStr (lit "model not found"))] in
  let resp := {| status_code := 200; reason := lit "OK"; url := Embeddings.endpoint demo_client;
                 json_body := inr body |} in
  (fun _ _ => ret resp : Exc Response) (Embeddings.endpoint demo_client)
      (embed_payload demo_client [lit "a"]) = inr resp /\
  ~ (400 <= status_code resp < 600) /\
  Embeddings.embed_documents demo_client (fun _ _ => ret resp) [lit "a"] = inl (lit "'data'").
Proof.
  intros body resp. split; [reflexivity|]. split; [simpl; lia|].
  apply (embed_documents_missing_data _ _ _ resp
           [(lit "object", JStr (lit "error")); (lit "message", JStr (lit "model not found"))]);
    [reflexivity|simpl; lia|reflexivity|reflexivity].
Defined.

(** X14: when "data" is an empty JSON object or an empty string, the loop
    iterates over nothing: [embed_documents] returns an empty list without
    raising, and [embed_query] then raises "list index out of range". *)
Theorem embed_documents_empty_data self post text resp data :
  post (Embeddings.endpoint self) (embed_payload self [text]) = inr resp ->
  ~ (400 <= status_code resp < 600) ->
  json_body resp = inr data ->
  (Embeddings.json_getitem data (lit "data") = inr (JObj []) \/
   Embeddings.json_getitem data (lit "data") = inr (JStr [])) ->
  Embeddings.embed_documents self post [text] = inr [] /\
  Embeddings.embed_query self post text = inl (lit "list index out of range").
Proof.
  intros Hpost Hs Hb Hd.
  assert (He : Embeddings.embed_documents self post [text] = inr []).
  { unfold Embeddings.embed_documents. unfold embed_payload in Hpost.
    cbv zeta. rewrite Hpost. cbn [bind]. rewrite raise_for_status_ok by exact Hs.
    cbn [bind]. rewrite Hb. cbn [bind].
    destruct Hd as [Hd|Hd]; rewrite Hd; reflexivity. }
  split; [exact He|]. unfold Embeddings.embed_query. rewrite He. reflexivity.
Qed.

Lemma embed_documents_empty_data_witness :
  let resp := {| status_code := 200; reason := lit "OK"; url := Embeddings.endpoint demo_client;
                 json_body := inr (JObj [(lit "data", JObj [])]) |} in
  (fun _ _ => ret resp : Exc Response) (Embeddings.endpoint demo_client)
      (embed_payload demo_client [lit "a"]) = inr resp /\
  ~ (400 <= status_code resp < 600) /\
  Embeddings.embed_documents demo_client (fun _ _ => ret resp) [lit "a"] = inr [] /\
  Embeddings.embed_query demo_client (fun _ _ => ret resp) (lit "a") =
    inl (lit "list index out of range").
Proof.
  intro resp. split; [reflexivity|]. split; [simpl; lia|].
  apply (embed_documents_empty_data _ _ _ resp (JObj [(lit "data", JObj [])]));
    [reflexivity|simpl; lia|reflexivity|left; reflexivity].
Defined.

Lemma pystr_eqb_eq a b : pystr_eqb a b = true -> a = b.
Proof.
  revert b. induction a as [|x a IH]; intros [|y b]; simpl; try discriminate; [reflexivity|].
  intro H. apply andb_true_iff in H as [Hxy Hab]. apply Z.eqb_eq in Hxy.
  rewrite Hxy, (IH b Hab). reflexivity.
Qed.

Lemma styles_get_none k l : ~ In k (map fst l) -> SearchSimilarTool.styles_get k l = None.
Proof.
  induction l as [|[k' v] l IH]; simpl; intro H; [reflexivity|].
  destruct (pystr_eqb k k') eqn:E.
  - apply pystr_eqb_eq in E. subst. exfalso. apply H. left. reflexivity.
  - apply IH. intro Hin. apply H. right. exact Hin.
Qed.

(** X15: a style other than "detailed", "simple" and "context" gives the
    same prompt as "detailed". *)
Theorem search_translation_prompt_default_style text target_language style :
  ~ In style (map fst SearchSimilarTool.styles) ->
  SearchSimilarTool.search_translation_prompt text target_language style =
  SearchSimilarTool.search_translation_prompt text target_language (lit "detailed").
Proof.
  intro H. unfold SearchSimilarTool.search_translation_prompt.
  rewrite (styles_get_none style SearchSimilarTool.styles H). reflexivity.
Qed.

Lemma search_translation_prompt_default_style_witness :
  ~ In (lit "verbose") (map fst SearchSimilarTool.styles) /\
  SearchSimilarTool.search_translation_prompt (lit "premium") (lit "chinese") (lit "verbose") =
  SearchSimilarTool.search_translation_prompt (lit "premium") (lit "chinese") (lit "detailed").
Proof.
  assert (H : ~ In (lit "verbose") (map fst SearchSimilarTool.styles)).
  { simpl. intros [H|[H|[H|[]]]]; discriminate. }
  split; [exact H|]. apply search_translation_prompt_default_style. exact H.
Defined.

(** X16: for a [pair_id] that [int()] reads as [n] (surrounding Unicode
    spaces, a sign, ASCII or other Unicode decimal digits, single
    underscores) and the first row [r] with id [n], the two [translation://{pair_id}] resources print the same
    fields differently: search_similar_tool.py prints "N/A" for a NULL or
    empty column and the row's [created_at]; server.py prints "None" for a
    NULL column and always "Created At: None", its table mapping no
    [created_at]. *)
Theorem translation_resources_found w pair_id n r :
  py_int pair_id = inr n ->
  w_db_error w (QById n) = None ->
  find (fun row => id row =? n) (w_table w) = Some r ->
  SearchSimilarTool.get_translation_pair w pair_id =
    lit "Translation Pair #" ++ py_str_int (id r) ++ nl ++
    lit "GL Number: " ++ py_or_na (opt_str (gl_number r)) ++ nl ++
    lit "Row Number: " ++ py_or_na (opt_str (row_number r)) ++ nl ++
    lit "Version: " ++ py_or_na (opt_str (version r)) ++ nl ++
    lit "Effective Date: " ++ py_or_na (opt_str (effective_date r)) ++ nl ++ nl ++
    lit "English Text: " ++ english_text r ++ nl ++
    lit "Chinese Text: " ++ chinese_text r ++ nl ++ nl ++
    lit "Created At: " ++ SearchSimilarTool.created_at_or_na r /\
  Server.get_translation_resource w pair_id =
    nl ++ lit "Translation Pair #" ++ py_str_int (id r) ++ lit ":" ++ nl ++
    lit "GL Number: " ++ str_or_none (gl_number r) ++ nl ++
    lit "Row Number: " ++ str_or_none (row_number r) ++ nl ++
    lit "Version: " ++ str_or_none (version r) ++ nl ++
    lit "Effective Date: " ++ str_or_none (effective_date r) ++ nl ++ nl ++
    lit "English Text: " ++ english_text r ++ nl ++
    lit "Chinese Text: " ++ chinese_text r ++ nl ++ nl ++
    lit "Created At: None" ++ nl.
Proof.
  intros Hn Hdb Hf. split.
  - unfold SearchSimilarTool.get_translation_pair. rewrite Hn. cbn [bind].
    rewrite Hdb, Hf. reflexivity.
  - unfold Server.get_translation_resource. rewrite Hn. cbn [bind].
    rewrite Hdb, Hf.
    destruct (gl_number r), (row_number r), (version r), (effective_date r); reflexivity.
Qed.

Lemma translation_resources_found_witness :
  py_int [160; 1635] = inr 3 /\
  w_db_error demo_world (QById 3) = None /\
  find (fun row => id row =? 3) (w_table demo_world) =
    Some (demo_row 3 "insurance terms" "terms" [3#5; 4#5]%Q None) /\
  let r := demo_row 3 "insurance terms" "terms" [3#5; 4#5]%Q None in
  SearchSimilarTool.get_translation_pair demo_world [160; 1635] =
    lit "Translation Pair #" ++ py_str_int (id r) ++ nl ++
    lit "GL Number: " ++ py_or_na (opt_str (gl_number r)) ++ nl ++
    lit "Row Number: " ++ py_or_na (opt_str (row_number r)) ++ nl ++
    lit "Version: " ++ py_or_na (opt_str (version r)) ++ nl ++
    lit "Effective Date: " ++ py_or_na (opt_str (effective_date r)) ++ nl ++ nl ++
    lit "English Text: " ++ english_text r ++ nl ++
    lit "Chinese Text: " ++ chinese_text r ++ nl ++ nl ++
    lit "Created At: " ++ SearchSimilarTool.created_at_or_na r /\
  Server.get_translation_resource demo_world [160; 1635] =
    nl ++ lit "Translation Pair #" ++ py_str_int (id r) ++ lit ":" ++ nl ++
    lit "GL Number: " ++ str_or_none (gl_number r) ++ nl ++
    lit "Row Number: " ++ str_or_none (row_number r) ++ nl ++
    lit "Version: " ++ str_or_none (version r) ++ nl ++
    lit "Effective Date: " ++ str_or_none (effective_date r) ++ nl ++ nl ++
    lit "English Text: " ++ english_text r ++ nl ++
    lit "Chinese Text: " ++ chinese_text r ++ nl ++ nl ++
    lit "Created At: None" ++ nl.
Proof.
  split; [reflexivity|]. split; [reflexivity|]. split; [reflexivity|].
  apply (translation_resources_found demo_world [160; 1635] 3); reflexivity.
Defined.

(** X17: when no row has the id, both resources print "Translation pair
    with ID <pair_id> not found", echoing [pair_id] as given, not [n]. *)
Theorem translation_resources_not_found w pair_id n :
  py_int pair_id = inr n ->
  w_db_error w (QById n) = None ->
  find (fun row => id row =? n) (w_table w) = None ->
  SearchSimilarTool.get_translation_pair w pair_id =
    lit "Translation pair with ID " ++ pair_id ++ lit " not found" /\
  Server.get_translation_resource w pair_id =
    lit "Translation pair with ID " ++ pair_id ++ lit " not found".
Proof.
  intros Hn Hdb Hf.
  unfold SearchSimilarTool.get_translation_pair, Server.get_translation_resource.
  rewrite Hn. cbn [bind]. rewrite Hdb, Hf. split; reflexivity.
Qed.

Lemma translation_resources_not_found_witness :
  py_int (lit "0_9") = inr 9 /\
  w_db_error demo_world (QById 9) = None /\
  find (fun row => id row =? 9) (w_table demo_world) = None /\
  SearchSimilarTool.get_translation_pair demo_world (lit "0_9") =
    lit "Translation pair with ID " ++ lit "0_9" ++ lit " not found" /\
  Server.get_translation_resource demo_world (lit "0_9") =
    lit "Translation pair with ID " ++ lit "0_9" ++ lit " not found".
Proof.
  split; [reflexivity|]. split; [reflexivity|]. split; [reflexivity|].
  apply (translation_resources_not_found demo_world (lit "0_9") 9); reflexivity.
Defined.



Lemma in_firstn_in {A} n (l : list A) x : In x (firstn n l) -> In x l.
Proof.
  intro H. rewrite <- (firstn_skipn n l). apply in_or_app. left. exact H.
Qed.

(** X19: the two [search_similar_pairs] differ only in
    [metadata.created_at]: server.py's response is search_similar_tool.py's
    with the metadata of every pair replaced by [{"created_at": None}].
    So the two are equal whenever no row of the table has a
    [created_at]. *)
Theorem search_similar_pairs_files_agree w user_input target_language top_k :
  Server.search_similar_pairs w user_input target_language top_k =
    drop_created_at_pairs (SearchSimilarTool.search_similar_pairs w user_input target_language top_k) /\
  (Forall (fun r => created_at r = None) (w_table w) ->
   SearchSimilarTool.search_similar_pairs w user_input target_language top_k =
   Server.search_similar_pairs w user_input target_language top_k).
Proof.
  split.
  - rewrite tool_pipeline, server_pipeline. unfold pipeline.
    destruct (embed_query w user_input) as [e|q]; [reflexivity|].
    destruct (query_nearest w q (validate_top_k top_k)) as [e|retrieved]; [reflexivity|].
    unfold search_success, drop_created_at_pairs. cbn [map fst snd String.eqb].
    rewrite map_map, !length_map. reflexivity.
  - intro Hall. rewrite tool_pipeline, server_pipeline. unfold pipeline.
    destruct (embed_query w user_input) as [e|q]; [reflexivity|].
    destruct (query_nearest w q (validate_top_k top_k)) as [e|retrieved] eqn:Hq; [reflexivity|].
    f_equal. apply map_ext_in. intros r Hr.
    unfold query_nearest in Hq. destruct (w_db_error w _); [discriminate|].
    injection Hq as <-. apply in_firstn_in in Hr.
    apply (Permutation_in _ (Permutation_sym (order_by_perm _ _))) in Hr.
    rewrite Forall_forall in Hall. specialize (Hall r Hr).
    unfold SearchSimilarTool.row_to_pair, Server.row_to_pair. rewrite Hall. reflexivity.
Qed.

Lemma search_similar_pairs_files_agree_witness :
  Forall (fun r => created_at r = None) (w_table no_timestamp_world) /\
  SearchSimilarTool.search_similar_pairs no_timestamp_world (lit "payment terms") (lit "chinese") 3 =
  Server.search_similar_pairs no_timestamp_world (lit "payment terms") (lit "chinese") 3 /\
  Server.search_similar_pairs demo_world (lit "insurance") (lit "chinese") 3 =
    drop_created_at_pairs (SearchSimilarTool.search_similar_pairs demo_world (lit "insurance") (lit "chinese") 3).
Proof.
  assert (H : Forall (fun r => created_at r = None) (w_table no_timestamp_world)).
  { repeat constructor. }
  split; [exact H|]. split;
  [|exact (proj1 (search_similar_pairs_files_agree demo_world (lit "insurance") (lit "chinese") 3))].
  exact (proj2 (search_similar_pairs_files_agree no_timestamp_world (lit "payment terms")
                  (lit "chinese") 3) H).
Defined.




